(** * FeedTAXII2: the TAXII 2 feed integration

    A shallow embedding of
    [Packs/FeedTAXII/Integrations/FeedTAXII2/FeedTAXII2.py] and the
    properties its specification states about the fetch cycle, the
    on-demand listing, the cursor reset and the limit parser.

    The integration is glue between two collaborators whose code is not part
    of the integration file: the platform runtime ([demisto], together with
    the helpers of CommonServerPython) and the TAXII 2 client
    ([Taxii2FeedClient] of TAXII2ApiModule).  The platform is modelled by an
    explicit state record; what the client and the helpers compute is taken
    as a parameter of the development, so every theorem holds for any
    behaviour of theirs unless a hypothesis says otherwise. *)

From stdpp Require Import gmap strings list fin_maps pretty.
From Stdlib Require Import ZArith Lia.


(** ** Python values *)

(** A [float]: the binary fraction [m * 2^e] it denotes, an infinity or a
    NaN.  No arithmetic on floats is modelled, only what [bool] and [int]
    make of one. *)
Inductive pyfloat : Type :=
  | FloatFinite (m e : Z)
  | FloatInf (negative : bool)
  | FloatNaN.

(** The values that travel through the integration: parameters and arguments
    handed over by the platform, timestamps, indicator fields. *)
#[warning="-register-all"] Inductive pyvalue : Type :=
  | PyNone
  | PyBool (b : bool)
  | PyInt (z : Z)
  | PyFloat (f : pyfloat)
  | PyStr (s : string)
  | PyList (l : list pyvalue)
  | PyDict (d : gmap string pyvalue).

(** An indicator, and any other row handed to the table printer, is a Python
    dict with string keys. *)
Abbreviation indicator := (gmap string pyvalue).

(** The per-collection cursor: [{collection_id: last_run_time}].  The source
    stores whatever [latest_fetched_indicator_created] holds, which may be
    [None], so the values are Python values and not only strings. *)
Abbreviation cursor := (gmap string pyvalue).

(** [bool(v)]. *)
Definition truthy (v : pyvalue) : bool :=
  match v with
  | PyNone => false
  | PyBool b => b
  | PyInt z => negb (Z.eqb z 0)
  | PyFloat (FloatFinite m _) => negb (Z.eqb m 0)
  | PyFloat _ => true
  | PyStr s => negb (String.eqb s EmptyString)
  | PyList l => match l with [] => false | _ => true end
  | PyDict d => negb (Nat.eqb (size d) 0)
  end.

(** [x or y]. *)
Definition py_or (x y : pyvalue) : pyvalue := if truthy x then x else y.

(** [v == s] for a string literal [s]: only a [str] with the same characters
    is equal to a [str]. *)
Definition py_eq_str (v : pyvalue) (s : string) : bool :=
  match v with
  | PyStr t => String.eqb t s
  | _ => false
  end.

(** [d.get(k)] on a dict: a missing key reads as [None]. *)
Definition dict_get (d : gmap string pyvalue) (k : string) : pyvalue :=
  default PyNone (d !! k).

(** [type(v).__name__]. *)
Definition type_name (v : pyvalue) : string :=
  match v with
  | PyNone => "NoneType"
  | PyBool _ => "bool"
  | PyInt _ => "int"
  | PyFloat _ => "float"
  | PyStr _ => "str"
  | PyList _ => "list"
  | PyDict _ => "dict"
  end.

(** [d.get(k, dflt)]. *)
Definition dict_get_default (d : gmap string pyvalue) (k : string) (dflt : pyvalue) : pyvalue :=
  default dflt (d !! k).

(** The line feed of the Python literals ["\n"]. *)
Definition LF : string := String (Ascii.ascii_of_nat 10) EmptyString.

(** ** Exceptions and outcomes *)

Inductive exn : Type :=
  | DemistoException (msg : string)
  | SSLError (msg : string)
  | PyException (kind msg : string)
  | SystemExit.

(** [str(e)]. *)
Definition exn_str (e : exn) : string :=
  match e with
  | DemistoException msg => msg
  | SSLError msg => msg
  | PyException _ msg => msg
  | SystemExit => EmptyString
  end.

(** [except Exception] does not catch [SystemExit], which derives from
    [BaseException] only. *)
Definition is_Exception (e : exn) : bool :=
  match e with SystemExit => false | _ => true end.

(** [isinstance(e, requests.exceptions.SSLError)]. *)
Definition is_SSLError (e : exn) : bool :=
  match e with SSLError _ => true | _ => false end.

Inductive outcome (A : Type) : Type :=
  | Return (a : A)
  | Raise (e : exn).
Arguments Return {A} a.
Arguments Raise {A} e.

Definition returns {A} (o : outcome A) : Prop := ∃ a, o = Return a.

(** A computation over a mutable state [S] that may raise.  The state
    survives an exception, as the mutations of a Python object do. *)
Definition M (S A : Type) : Type := S → outcome A * S.

Definition ret {S A} (a : A) : M S A := λ s, (Return a, s).
Definition raise {S A} (e : exn) : M S A := λ s, (Raise e, s).
Definition bind {S A B} (m : M S A) (k : A → M S B) : M S B :=
  λ s, match m s with
       | (Return a, s') => k a s'
       | (Raise e, s') => (Raise e, s')
       end.
Definition gets {S A} (f : S → A) : M S A := λ s, (Return (f s), s).
Definition modify {S} (f : S → S) : M S unit := λ s, (Return tt, f s).
(** Lifting a fallible pure step. *)
Definition lift {S A} (o : outcome A) : M S A := λ s, (o, s).
(** [try: m except Exception as e: h e]. *)
Definition try_except {S A} (m : M S A) (h : exn → M S A) : M S A :=
  λ s, match m s with
       | (Return a, s') => (Return a, s')
       | (Raise e, s') => if is_Exception e then h e s' else (Raise e, s')
       end.

Notation "x <- c ;; k" := (bind c (λ x, k))
  (at level 100, c at next level, right associativity).
Notation "c ;;; k" := (bind c (λ _, k))
  (at level 100, right associativity).

(** ** Data of the integration *)

Definition CONTEXT_PREFIX : string := "TAXII2".

(** The default [err_msg] of [try_parse_integer]. *)
Definition LIMIT_ERR_MSG : string := "Please provide a valid limit (positive integer)".

(** What the builtin [int(x)] does on a value: it returns an integer or
    raises [TypeError] (no number in the value), [ValueError] (a string that
    is no literal, a NaN) or [OverflowError] (an infinite float). *)
Inductive int_result : Type :=
  | IntOk (n : Z)
  | IntTypeError
  | IntValueError
  | IntOverflowError.

(** [str(e)] of the [OverflowError] of [int]. *)
Definition OVERFLOW_MSG : string := "cannot convert float infinity to integer".

(** A collection object of the client: the integration reads [id] and
    [title]. *)
Record Collection : Type := { id : string; title : string }.

(** [CommandResults(outputs_prefix, outputs_key_field, outputs, readable_output)]. *)
Record CommandResults : Type := {
  outputs_prefix : string;
  outputs_key_field : string;
  outputs : list indicator;
  readable_output : string;
}.

(** What a command handler returns: [None], a [str] or a [CommandResults]. *)
Inductive command_result : Type :=
  | ResNone
  | ResStr (s : string)
  | ResCommandResults (cr : CommandResults).

(** What the platform receives during a run. *)
Inductive entry : Type :=
  | Results (v : pyvalue)                (* demisto.results(v) *)
  | ReturnResults (r : command_result)   (* return_results(r) *)
  | ReturnError (msg : string).          (* return_error(msg) *)

(** The platform side of a run: the command with its parameters and
    arguments, the persisted integration context, and what the run has sent
    to the platform so far. *)
Record demisto_state : Type := {
  command : string;
  params : gmap string pyvalue;
  args : gmap string pyvalue;
  integration_context : cursor;
  entries : list entry;
  created_indicators : list (list indicator);
  info_log : list string;
}.

Definition set_integration_context (ctx : cursor) (d : demisto_state) : demisto_state :=
  {| command := command d; params := params d; args := args d;
     integration_context := ctx; entries := entries d;
     created_indicators := created_indicators d; info_log := info_log d |}.

Definition add_entry (e : entry) (d : demisto_state) : demisto_state :=
  {| command := command d; params := params d; args := args d;
     integration_context := integration_context d; entries := entries d ++ [e];
     created_indicators := created_indicators d; info_log := info_log d |}.

Definition add_created (b : list indicator) (d : demisto_state) : demisto_state :=
  {| command := command d; params := params d; args := args d;
     integration_context := integration_context d; entries := entries d;
     created_indicators := created_indicators d ++ [b]; info_log := info_log d |}.

Definition add_info (msg : string) (d : demisto_state) : demisto_state :=
  {| command := command d; params := params d; args := args d;
     integration_context := integration_context d; entries := entries d;
     created_indicators := created_indicators d; info_log := info_log d ++ [msg] |}.

(** The platform invoking the instance with another command. *)
Definition invoke (cmd : string) (a : gmap string pyvalue) (d : demisto_state) : demisto_state :=
  {| command := cmd; params := params d; args := a;
     integration_context := integration_context d; entries := entries d;
     created_indicators := created_indicators d; info_log := info_log d |}.

(** ** The integration, over its collaborators *)

Section Integration.

(** Whatever else the client object holds (session, API root, what the
    server would answer): the integration never looks at it. *)
Context {transport : Type}.

(** The fields of [Taxii2FeedClient] the integration reads or assigns. *)
Record Taxii2FeedClient : Type := {
  collection_to_fetch : option Collection;
  collections : option (list Collection);
  latest_fetched_indicator_created : pyvalue;
  connection : transport;
}.

Definition with_collection_to_fetch (c : option Collection) (cl : Taxii2FeedClient) : Taxii2FeedClient :=
  {| collection_to_fetch := c; collections := collections cl;
     latest_fetched_indicator_created := latest_fetched_indicator_created cl;
     connection := connection cl |}.

(** One call of [client.build_iterator], as the server side sees it: the
    collection selected at the time of the call and the two arguments. *)
Record request : Type := {
  req_collection : option Collection;
  req_limit : Z;
  req_added_after : pyvalue;
}.

(** The state a handler runs in: the client object, the platform, and the
    history of the calls made on the client (ghost state, appended to by
    [client_build_iterator] only). *)
Record world : Type := {
  client : Taxii2FeedClient;
  demisto : demisto_state;
  requests : list request;
}.

Definition with_client (f : Taxii2FeedClient → Taxii2FeedClient) (w : world) : world :=
  {| client := f (client w); demisto := demisto w; requests := requests w |}.

Definition with_demisto (f : demisto_state → demisto_state) (w : world) : world :=
  {| client := client w; demisto := f (demisto w); requests := requests w |}.

(** *** Collaborators *)

(** What the integration calls and does not define. *)
Class Collaborators : Type := {
  (** the builtin [int] *)
  py_int : pyvalue → int_result;
  (** the builtin [repr] on a [str] *)
  py_repr : string → string;
  (** the text of the [TypeError] the interpreter raises when [f(client,
      **args)] does not fit the keyword parameters of [f] *)
  signature_error : string → list string → gmap string pyvalue → string;
  (** [parse_date_range(date_range, date_format=TAXII_TIME_FORMAT)] of
      CommonServerPython: the start and the end of the range, formatted *)
  parse_date_range : pyvalue → outcome (string * string);
  (** [client.build_iterator(limit, added_after)]: the indicators, or an
      exception, and the client as the call leaves it *)
  build_iterator : Taxii2FeedClient → Z → pyvalue → outcome (list indicator) * Taxii2FeedClient;
  (** [ERR_NO_COLL] of TAXII2ApiModule *)
  ERR_NO_COLL : string;
  (** [tableToMarkdown(name, t, headers)] of CommonServerPython *)
  tableToMarkdown : string → list indicator → list string → string;
  (** [batch(iterable, batch_size)] of CommonServerPython *)
  batch : list indicator → Z → list (list indicator);
  (** [traceback.format_exc()] while the exception is handled *)
  format_exc : exn → string;
  (** [handle_proxy()] of CommonServerPython *)
  handle_proxy : demisto_state → pyvalue;
  (** [Taxii2FeedClient(url, collection_to_fetch, proxies, verify, username,
      password)] followed by [client.initialise()] *)
  new_client : pyvalue → pyvalue → pyvalue → bool → pyvalue → pyvalue → outcome Taxii2FeedClient;
}.

Context {E : Collaborators}.

(** *** Primitive steps *)

Definition client_build_iterator (limit : Z) (added_after : pyvalue) : M world (list indicator) :=
  λ w, let '(o, cl) := build_iterator (client w) limit added_after in
       (o, {| client := cl; demisto := demisto w;
              requests := requests w ++ [ {| req_collection := collection_to_fetch (client w);
                                             req_limit := limit;
                                             req_added_after := added_after |} ] |}).

Definition demisto_results (v : pyvalue) : M world unit :=
  modify (with_demisto (add_entry (Results v))).

Definition return_results (r : command_result) : M world unit :=
  modify (with_demisto (add_entry (ReturnResults r))).

(** [return_error] reports the message and ends the process. *)
Definition return_error {A} (msg : string) : M world A :=
  modify (with_demisto (add_entry (ReturnError msg))) ;;; raise SystemExit.

Definition demisto_info (msg : string) : M world unit :=
  modify (with_demisto (add_info msg)).

Definition demisto_createIndicators (b : list indicator) : M world unit :=
  modify (with_demisto (add_created b)).

Definition demisto_setIntegrationContext (ctx : cursor) : M world unit :=
  modify (with_demisto (set_integration_context ctx)).

Definition demisto_getIntegrationContext : M world cursor :=
  gets (λ w, integration_context (demisto w)).

(** [for x in xs: f x]. *)
Fixpoint for_each {A} (xs : list A) (f : A → M world unit) : M world unit :=
  match xs with
  | [] => ret tt
  | x :: rest => f x ;;; for_each rest f
  end.

(** *** Helper functions *)

(** [try_parse_integer(int_to_parse, err_msg)]: the [except] clause names
    [TypeError] and [ValueError]; what else [int] raises passes through. *)
Definition try_parse_integer (int_to_parse : pyvalue) (err_msg : string) : outcome Z :=
  match py_int int_to_parse with
  | IntOk res => Return res
  | IntTypeError | IntValueError => Raise (DemistoException err_msg)
  | IntOverflowError => Raise (PyException "OverflowError" OVERFLOW_MSG)
  end.

(** *** Command functions *)

Definition module_test_command : M world unit :=
  colls <- gets (λ w, collections (client w)) ;;
  match colls with
  | Some (_ :: _) => demisto_results (PyStr "ok")
  | _ => return_error "Could not connect to server"
  end.

(** [last_run_ctx[cid] if cid in last_run_ctx else initial_interval]. *)
Definition cursor_or (last_run_ctx : cursor) (cid : string) (initial_interval : string) : pyvalue :=
  match last_run_ctx !! cid with
  | Some t => t
  | None => PyStr initial_interval
  end.

(** The loop of [fetch_indicators_command] over [client.collections]; the
    accumulators are the variables the loop assigns. *)
Fixpoint fetch_all (colls : list Collection) (initial_interval : string) (limit : Z)
    (indicators : list indicator) (last_run_ctx : cursor) : M world (list indicator * cursor) :=
  match colls with
  | [] => ret (indicators, last_run_ctx)
  | collection :: rest =>
      modify (with_client (with_collection_to_fetch (Some collection))) ;;;
      let added_after := cursor_or last_run_ctx (id collection) initial_interval in
      fetched_iocs <- client_build_iterator limit added_after ;;
      let indicators := indicators ++ fetched_iocs in
      (* line 62, then the next iteration *)
      let next (limit : Z) : M world (list indicator * cursor) :=
        latest <- gets (λ w, latest_fetched_indicator_created (client w)) ;;
        fetch_all rest initial_interval limit indicators (<[id collection := latest]> last_run_ctx) in
      if (limit >=? 0)%Z then
        let limit := (limit - Z.of_nat (length fetched_iocs))%Z in
        if (limit <=? 0)%Z then ret (indicators, last_run_ctx) (* break *)
        else next limit
      else next limit
  end.

Definition fetch_indicators_command (initial_interval : pyvalue) (limit : Z) (last_run_ctx : cursor)
    : M world (list indicator * cursor) :=
  range <- lift (parse_date_range initial_interval) ;;
  let initial_interval := fst range in
  pinned <- gets (λ w, collection_to_fetch (client w)) ;;
  match pinned with
  | None =>
      colls <- gets (λ w, collections (client w)) ;;
      match colls with
      | None => raise (DemistoException ERR_NO_COLL)
      | Some colls => fetch_all colls initial_interval limit [] last_run_ctx
      end
  | Some pinned =>
      let added_after := cursor_or last_run_ctx (id pinned) initial_interval in
      indicators <- client_build_iterator limit added_after ;;
      latest <- gets (λ w, latest_fetched_indicator_created (client w)) ;;
      target <- gets (λ w, collection_to_fetch (client w)) ;;
      match target with
      | None => raise (PyException "AttributeError" "'NoneType' object has no attribute 'id'")
      | Some target =>
          ret (indicators, <[id target := if truthy latest then latest else added_after]> last_run_ctx)
      end
  end.

(** The loop of [get_indicators_command] over [client.collections]. *)
Fixpoint get_all (colls : list Collection) (limit : Z) (added_after : pyvalue)
    (indicators : list indicator) : M world (list indicator) :=
  match colls with
  | [] => ret indicators
  | collection :: rest =>
      modify (with_client (with_collection_to_fetch (Some collection))) ;;;
      fetched_iocs <- client_build_iterator limit added_after ;;
      let indicators := indicators ++ fetched_iocs in
      if (limit >=? 0)%Z then
        let limit := (limit - Z.of_nat (length fetched_iocs))%Z in
        if (limit <=? 0)%Z then ret indicators (* break *)
        else get_all rest limit added_after indicators
      else get_all rest limit added_after indicators
  end.

(** Lines 84 to 104 of [get_indicators_command]: the arguments are parsed
    and the indicators are collected. *)
Definition get_indicators_collect (limit : pyvalue) (added_after : pyvalue) : M world (list indicator) :=
  limit <- lift (try_parse_integer limit LIMIT_ERR_MSG) ;;
  added_after <- (if truthy added_after
                  then range <- lift (parse_date_range added_after) ;; ret (PyStr (fst range))
                  else ret added_after) ;;
  pinned <- gets (λ w, collection_to_fetch (client w)) ;;
  match pinned with
  | None =>
      colls <- gets (λ w, collections (client w)) ;;
      match colls with
      | None => raise (DemistoException ERR_NO_COLL)
      | Some colls => get_all colls limit added_after []
      end
  | Some _ => client_build_iterator limit added_after
  end.

(** The value given to [demisto.results] in raw mode:
    [{"indicators": [x.get("rawJSON") for x in indicators]}]. *)
Definition raw_output (indicators : list indicator) : pyvalue :=
  PyDict {[ "indicators" := PyList ((λ x, dict_get x "rawJSON") <$> indicators) ]}.

(** Lines 106 to 120 of [get_indicators_command]. *)
Definition get_indicators_output (raw : bool) (indicators : list indicator) : M world command_result :=
  if raw then
    demisto_results (raw_output indicators) ;;;
    ret ResNone
  else
    let md := "Found " +:+ pretty (length indicators) +:+ " results:" +:+ LF
              +:+ tableToMarkdown EmptyString indicators ["value"; "type"] in
    match indicators with
    | _ :: _ =>
        ret (ResCommandResults {| outputs_prefix := CONTEXT_PREFIX +:+ ".Indicators";
                                  outputs_key_field := "value";
                                  outputs := indicators;
                                  readable_output := md |})
    | [] => ret (ResStr md)
    end.

(** [get_indicators_command(client, raw, limit, added_after)]; the defaults
    of the three arguments are filled in by the caller. *)
Definition get_indicators_command (raw limit added_after : pyvalue) : M world command_result :=
  indicators <- get_indicators_collect limit added_after ;;
  get_indicators_output (py_eq_str raw "true") indicators.

Definition get_collections_command : M world command_result :=
  colls <- gets (λ w, collections (client w)) ;;
  match colls with
  | None => raise (PyException "TypeError" "'NoneType' object is not iterable")
  | Some colls =>
      let collections :=
        (λ collection : Collection,
           ({[ "Name" := PyStr (title collection); "ID" := PyStr (id collection) ]} : indicator))
        <$> colls in
      let md := tableToMarkdown "TAXII2 Server Collections:" collections ["Name"; "ID"] in
      ret (ResCommandResults {| outputs_prefix := CONTEXT_PREFIX +:+ ".Collections";
                                outputs_key_field := "ID";
                                outputs := collections;
                                readable_output := md |})
  end.

Definition RESET_MSG : string :=
  "Fetch was reset successfully. Your next indicator fetch will collect indicators from "
  +:+ "the configured " +:+ String (Ascii.ascii_of_nat 34) "First Fetch Time"
  +:+ String (Ascii.ascii_of_nat 34) EmptyString.

Definition reset_fetch_command : M world command_result :=
  demisto_setIntegrationContext ∅ ;;;
  ret (ResStr RESET_MSG).

(** *** Dispatch *)

(** [f(client, **args)]: a key of [args] that is not a keyword parameter of
    [f] is a [TypeError], with the text the interpreter gives it. *)
Definition check_kwargs (fname : string) (allowed : list string) (args : gmap string pyvalue) : M world unit :=
  if bool_decide (dom args ⊆ (list_to_set allowed : gset string)) then ret tt
  else raise (PyException "TypeError" (signature_error fname allowed args)).

(** [commands[command](client, **args)] *)
Definition call_command (command : string) (args : gmap string pyvalue) : M world command_result :=
  if String.eqb command "taxii2-reset-fetch-indicators" then
    check_kwargs "reset_fetch_command" [] args ;;;
    reset_fetch_command
  else if String.eqb command "taxii2-get-indicators" then
    check_kwargs "get_indicators_command" ["raw"; "limit"; "added_after"] args ;;;
    get_indicators_command (dict_get_default args "raw" (PyStr "false"))
                           (dict_get_default args "limit" (PyInt 10))
                           (dict_get_default args "added_after" PyNone)
  else if String.eqb command "taxii2-get-collections" then
    check_kwargs "get_collections_command" [] args ;;;
    get_collections_command
  else raise (PyException "KeyError" (py_repr command)). (* str(KeyError(k)) is repr(k) *)

(** [credentials.get(k)], where [credentials] is [params.get("credentials") or {}]. *)
Definition credentials_get (credentials : pyvalue) (k : string) : outcome pyvalue :=
  match credentials with
  | PyDict d => Return (dict_get d k)
  | _ => Raise (PyException "AttributeError"
                  ("'" +:+ type_name credentials +:+ "' object has no attribute 'get'"))
  end.

(** The body of the [try] block of [main], once the client is built. *)
Definition main_dispatch (params args : gmap string pyvalue) (command : string) : M world unit :=
  if String.eqb command "test-module" then
    module_test_command
  else if String.eqb command "fetch-indicators" then
    let initial_interval := dict_get params "initial_interval" in
    limit <- lift (try_parse_integer (py_or (dict_get params "limit") (PyInt (-1))) LIMIT_ERR_MSG) ;;
    integration_ctx <- demisto_getIntegrationContext ;;
    let integration_ctx := if truthy (PyDict integration_ctx) then integration_ctx else ∅ in
    fetched <- fetch_indicators_command initial_interval limit integration_ctx ;;
    for_each (batch (fst fetched) 2000) demisto_createIndicators ;;;
    demisto_setIntegrationContext (snd fetched)
  else
    r <- call_command command args ;;
    return_results r.

(** The [except Exception as e] clause of [main]. *)
Definition main_except (command : string) (e : exn) : M world unit :=
  let err_msg := "Failed to execute " +:+ command +:+ " command. Error: " +:+ exn_str e
                 +:+ LF +:+ LF +:+ "traceback: " +:+ format_exc e in
  if is_SSLError e then
    demisto_info err_msg ;;; (* LOG(err_msg) *)
    return_error ("Encountered an HTTPS certificate error. This error can be ignored by enabling "
                  +:+ String (Ascii.ascii_of_nat 34) "Trust any certificate (not secure)"
                  +:+ String (Ascii.ascii_of_nat 34) " in the instance configuration.")
  else return_error err_msg.

(** [main()].  The variable [client] is assigned inside the [try] block; the
    client the state holds before is never read. *)
Definition main : M world unit :=
  params <- gets (λ w, params (demisto w)) ;;
  args <- gets (λ w, args (demisto w)) ;;
  let url := dict_get params "url" in
  let collection_to_fetch := dict_get params "collection_to_fetch" in
  let credentials := py_or (dict_get params "credentials") (PyDict ∅) in
  username <- lift (credentials_get credentials "identifier") ;;
  password <- lift (credentials_get credentials "password") ;;
  proxies <- gets (λ w, handle_proxy (demisto w)) ;;
  let verify_certificate := negb (truthy (dict_get_default params "insecure" (PyBool false))) in
  command <- gets (λ w, command (demisto w)) ;;
  demisto_info ("Command being called in " +:+ CONTEXT_PREFIX +:+ " is " +:+ command) ;;;
  try_except
    (cl <- lift (new_client url collection_to_fetch proxies verify_certificate username password) ;;
     modify (with_client (λ _, cl)) ;;;
     main_dispatch params args command)
    (main_except command).

End Integration.

Arguments Taxii2FeedClient : clear implicits.
Arguments world : clear implicits.
Arguments Collaborators : clear implicits.

(** ** A sample installation

    Concrete collaborators, to run the handlers on concrete inputs: a server
    with three collections, a decimal reader for the limit and a fixed clock
    for the date ranges. *)

Module Sample.

Definition digit_value (a : Ascii.ascii) : option Z :=
  let n := Ascii.nat_of_ascii a in
  if (48 <=? n)%nat && (n <=? 57)%nat then Some (Z.of_nat (n - 48)) else None.

Fixpoint digits_value (s : string) (acc : Z) : option Z :=
  match s with
  | EmptyString => Some acc
  | String a rest =>
      match digit_value a with
      | Some d => digits_value rest (10 * acc + d)%Z
      | None => None
      end
  end.

(** A plain decimal literal with an optional sign. *)
Definition decimal (s : string) : option Z :=
  match s with
  | EmptyString => None
  | String a (String _ _ as ds) =>
      if Ascii.eqb a (Ascii.ascii_of_nat 45) then Z.opp <$> digits_value ds 0
      else if Ascii.eqb a (Ascii.ascii_of_nat 43) then digits_value ds 0
      else digits_value s 0
  | _ => digits_value s 0
  end.

(** A stand-in for the builtin [int] on the values the platform passes for
    a limit.  Python reads more strings as integers than this reader does
    (blanks around the literal, underscores between digits). *)
Definition int (v : pyvalue) : int_result :=
  match v with
  | PyInt z => IntOk z
  | PyBool b => IntOk (if b then 1 else 0)
  | PyFloat (FloatFinite m e) =>
      (* towards zero *)
      IntOk (if (0 <=? e)%Z then m * 2 ^ e else Z.quot m (2 ^ (- e)))%Z
  | PyFloat (FloatInf _) => IntOverflowError
  | PyFloat FloatNaN => IntValueError
  | PyStr s => match decimal s with Some z => IntOk z | None => IntValueError end
  | PyNone | PyList _ | PyDict _ => IntTypeError
  end.

(** A stand-in for the builtin [repr] on a [str] that holds no quote, no
    backslash and no control character: the string between single quotes. *)
Definition repr (s : string) : string := "'" +:+ s +:+ "'".

(** A stand-in for the interpreter's text on a call that does not fit a
    signature: the function and a key it does not take. *)
Definition unexpected_keyword (fname : string) (allowed : list string)
    (args : gmap string pyvalue) : string :=
  fname +:+ "() got an unexpected keyword argument "
  +:+ repr (default EmptyString
              (head (List.filter (λ k, negb (bool_decide (k ∈ allowed))) (map_to_list args).*1))).

(** Modelled from the spec: [parse_date_range] of CommonServerPython, which
    turns the initial time-range expression into the timestamp the range
    starts at and the one it ends at.  The clock stands at 2024-03-01; an
    expression the table below does not hold ends the process, as the
    helper's [return_error] does. *)
Definition date_range (v : pyvalue) : outcome (string * string) :=
  match v with
  | PyStr s =>
      if String.eqb s "60 days" then Return ("2024-01-01T00:00:00Z", "2024-03-01T00:00:00Z")
      else if String.eqb s "1 day" then Return ("2024-02-29T00:00:00Z", "2024-03-01T00:00:00Z")
      else Raise SystemExit
  | _ => Raise (PyException "AttributeError" "object has no attribute 'strip'")
  end.

(** What the server stores: the indicators of each collection, by
    collection id. *)
Abbreviation server := (gmap string (list indicator)).

Definition stix (created : string) : pyvalue :=
  PyDict {[ "type" := PyStr "indicator"; "created" := PyStr created ]}.

Definition ioc (value type created : string) : indicator :=
  {[ "value" := PyStr value; "type" := PyStr type; "rawJSON" := stix created ]}.

(** The creation time an indicator carries. *)
Definition created_of (x : indicator) : string :=
  match dict_get x "rawJSON" with
  | PyDict r => match dict_get r "created" with PyStr t => t | _ => EmptyString end
  | _ => EmptyString
  end.

Definition col_1 : Collection := {| id := "col-1"; title := "Phishing" |}.
Definition col_2 : Collection := {| id := "col-2"; title := "Malware" |}.
Definition col_3 : Collection := {| id := "col-3"; title := "Empty" |}.
(** A second listing of the first collection, under the same id. *)
Definition col_1_mirror : Collection := {| id := "col-1"; title := "Phishing (mirror)" |}.

Definition content : server :=
  {[ "col-1" := [ ioc "198.51.100.7" "IP" "2024-01-01T12:00:00Z";
                  ioc "evil.example" "Domain" "2024-01-02T00:00:00Z";
                  ioc "203.0.113.9" "IP" "2024-01-01T18:00:00Z" ];
     "col-2" := [ ioc "bad.example" "Domain" "2024-02-10T00:00:00Z";
                  ioc "192.0.2.44" "IP" "2024-02-11T00:00:00Z" ];
     "col-3" := [] ]}.

(** The later of two creation times, [None] being earlier than any. *)
Definition later_created (latest : pyvalue) (x : indicator) : pyvalue :=
  match latest with
  | PyStr t => if String.ltb t (created_of x) then PyStr (created_of x) else latest
  | _ => PyStr (created_of x)
  end.

Definition added_after_filter (added_after : pyvalue) (x : indicator) : bool :=
  match added_after with
  | PyStr t => String.ltb t (created_of x)
  | _ => true
  end.

(** Modelled from the spec: [Taxii2FeedClient.build_iterator] of
    TAXII2ApiModule, the indicator fetch parameterised by the limit and the
    added-after cursor, which exposes the creation time of the most recent
    indicator fetched.  The client asks the selected collection for what was
    added after [added_after], keeps at most [limit] indicators when the
    limit is not negative, and remembers the latest creation time it has
    seen. *)
Definition iterator (cl : Taxii2FeedClient server) (limit : Z) (added_after : pyvalue)
    : outcome (list indicator) * Taxii2FeedClient server :=
  match collection_to_fetch cl with
  | None => (Raise (DemistoException "Could not find a collection to fetch from."), cl)
  | Some c =>
      let stored := default [] (connection cl !! id c) in
      let newer := List.filter (added_after_filter added_after) stored in
      let got := if (limit <? 0)%Z then newer else take (Z.to_nat limit) newer in
      (Return got,
       {| collection_to_fetch := collection_to_fetch cl;
          collections := collections cl;
          latest_fetched_indicator_created :=
            fold_left later_created got (latest_fetched_indicator_created cl);
          connection := connection cl |})
  end.

(** A client as the constructor leaves it, with [pinned] selected. *)
Definition fresh (pinned : option Collection) (colls : option (list Collection)) : Taxii2FeedClient server :=
  {| collection_to_fetch := pinned; collections := colls;
     latest_fetched_indicator_created := PyNone; connection := content |}.

(** Modelled from the spec: the constructor of [Taxii2FeedClient] and its
    [initialise], which enumerate the collections of the server and resolve
    the optional single-collection selector, given by title. *)
Definition connect (url collection_to_fetch proxies : pyvalue) (verify : bool)
    (username password : pyvalue) : outcome (Taxii2FeedClient server) :=
  let colls := [col_1; col_2; col_3] in
  match collection_to_fetch with
  | PyStr name =>
      match List.find (λ c, String.eqb (title c) name) colls with
      | Some c => Return (fresh (Some c) (Some colls))
      | None => Raise (DemistoException "Could not find the provided Collection name in the available collections.")
      end
  | _ => Return (fresh None (Some colls))
  end.

Definition cell (row : indicator) (h : string) : string :=
  match dict_get row h with PyStr s => s | _ => EmptyString end.

(** Modelled from the spec: [tableToMarkdown] of CommonServerPython, the
    display table of a result; one line per row, the cells of the headers
    in order. *)
Definition table (name : string) (t : list indicator) (headers : list string) : string :=
  match t with
  | [] => name +:+ "**No entries.**" +:+ LF
  | _ => name +:+ LF +:+
         String.concat LF ((λ row, String.concat "|" (cell row <$> headers)) <$> t) +:+ LF
  end.

(** Consecutive slices of [n] elements; [k] counts the room left in the
    slice being filled, [cur] holds it in reverse. *)
Fixpoint slices (n k : nat) (cur : list indicator) (l : list indicator) : list (list indicator) :=
  match l with
  | [] => match cur with [] => [] | _ => [rev cur] end
  | x :: rest =>
      match k with
      | O => rev cur :: slices n (n - 1) [x] rest
      | S k' => slices n k' (x :: cur) rest
      end
  end.

(** A stand-in for [batch] of CommonServerPython: consecutive slices of
    [batch_size] elements. *)
Definition batches (l : list indicator) (batch_size : Z) : list (list indicator) :=
  if (batch_size <=? 0)%Z then [] else slices (Z.to_nat batch_size) (Z.to_nat batch_size) [] l.

#[export] Instance collaborators : Collaborators server := {|
  py_int := int;
  py_repr := repr;
  signature_error := unexpected_keyword;
  parse_date_range := date_range;
  build_iterator := iterator;
  ERR_NO_COLL := "No collection is available for this user, please make sure you entered the configuration correctly";
  tableToMarkdown := table;
  batch := batches;
  format_exc := λ _, "Traceback (most recent call last): ...";
  handle_proxy := λ _, PyDict ∅;
  new_client := connect;
|}.

(** The platform before a run. *)
Definition platform (cmd : string) (p a : gmap string pyvalue) (ctx : cursor) : demisto_state :=
  {| command := cmd; params := p; args := a; integration_context := ctx;
     entries := []; created_indicators := []; info_log := [] |}.

(** A handler's state at its start. *)
Definition start (cl : Taxii2FeedClient server) (d : demisto_state) : world server :=
  {| client := cl; demisto := d; requests := [] |}.

Definition idle : demisto_state := platform "fetch-indicators" ∅ ∅ ∅.

(** A client that lists [colls] and has nothing pinned, and a client with
    [c] pinned, each at the start of a handler. *)
Definition all (colls : list Collection) : world server := start (fresh None (Some colls)) idle.
Definition only (c : Collection) : world server := start (fresh (Some c) (Some [c])) idle.
Definition unresolved : world server := start (fresh None None) idle.

(** The instance as the platform starts it for a command, and the client
    the constructor builds for it when nothing is pinned. *)
Definition instance (cmd : string) (p a : gmap string pyvalue) (ctx : cursor) : world server :=
  start (fresh None None) (platform cmd p a ctx).
Definition listed : Taxii2FeedClient server := fresh None (Some [col_1; col_2; col_3]).

(** Parameters of an instance: the first fetch reaches back 60 days. *)
Definition configured (limit : pyvalue) : gmap string pyvalue :=
  {[ "initial_interval" := PyStr "60 days"; "limit" := limit ]}.

End Sample.



(** ** Vocabulary of the properties *)

(** Observing the outcome of a run. *)
Definition is_return {A} (o : outcome A) : bool :=
  match o with Return _ => true | Raise _ => false end.

Definition returned {A} (o : outcome A) (dflt : A) : A :=
  match o with Return a => a | Raise _ => dflt end.

(** The indicators and the cursor mapping a fetch cycle returned. *)
Definition fetched {W} (run : outcome (list indicator * cursor) * W) : list indicator :=
  fst (returned (fst run) ([], ∅)).

Definition cursor_after {W} (run : outcome (list indicator * cursor) * W) (cid : string)
    : option pyvalue :=
  snd (returned (fst run) ([], ∅)) !! cid.

(** The later of two timestamps of the wire format, which orders as its
    characters do. *)
Definition later (a b : string) : string := if String.ltb a b then b else a.

(** A computation leaves an observation [f] of the state as it found it,
    whether it returns or raises. *)
Definition preserves {T X A} (f : world T → X) (m : M (world T) A) : Prop :=
  ∀ w, f (snd (m w)) = f w.

(** The persisted cursor mapping of a state. *)
Definition persisted {T} (w : world T) : cursor := integration_context (demisto w).

(** The same state over another persisted cursor mapping. *)
Definition repersist {T} (ctx : cursor) (w : world T) : world T :=
  with_demisto (set_integration_context ctx) w.

(** A computation does not read the persisted cursor mapping: over another
    mapping it takes the same course and leaves that mapping in place. *)
Definition oblivious {T A} (m : M (world T) A) : Prop :=
  ∀ ctx w, m (repersist ctx w) = (fst (m w), repersist ctx (snd (m w))).

(** The client was resolved to a pinned collection or to a list of
    collections. *)
Definition resolvable {T} (cl : Taxii2FeedClient T) : Prop :=
  collection_to_fetch cl ≠ None ∨ collections cl ≠ None.

(** The client honours a limit that is not negative: asked for at most
    [l] indicators, [build_iterator] returns at most [l]. *)
Definition respects_limit {T} (E : Collaborators T) : Prop :=
  ∀ cl l added_after indicators cl',
    (0 ≤ l)%Z →
    build_iterator cl l added_after = (Return indicators, cl') →
    (Z.of_nat (length indicators) ≤ l)%Z.

(** The collections a client lists carry distinct ids. *)
Definition distinct_ids {T} (cl : Taxii2FeedClient T) : Prop :=
  ∀ colls, collections cl = Some colls → NoDup (id <$> colls).

(** The reading of the added-after bound as the later of the persisted
    cursor and the parsed initial interval: every call the cycle makes is
    made for a collection, with that bound. *)
Definition added_after_is_later_bound {T} (E : Collaborators T)
    (initial_interval : pyvalue) (L : Z) (ctx : cursor) (w : world T) : Prop :=
  ∀ range, parse_date_range initial_interval = Return range →
  ∀ r, r ∈ drop (length (requests w))
               (requests (snd (fetch_indicators_command initial_interval L ctx w))) →
    ∃ c, req_collection r = Some c ∧
         req_added_after r =
           PyStr (match ctx !! id c with
                  | Some (PyStr t) => later t (fst range)
                  | _ => fst range
                  end).

(** The reading of "no collections are resolvable" that counts the empty
    list: nothing pinned, and no collection in [client.collections]. *)
Definition no_collections {T} (cl : Taxii2FeedClient T) : Prop :=
  collection_to_fetch cl = None ∧ (collections cl = None ∨ collections cl = Some []).

(** Under that reading: with no collection, the fetch cycle and the listing
    do not return. *)
Definition no_collections_never_returns {T} (E : Collaborators T) (w : world T) : Prop :=
  no_collections (client w) →
  (∀ initial_interval limit ctx,
     ¬ returns (fst (fetch_indicators_command initial_interval limit ctx w))) ∧
  (∀ raw limit added_after,
     ¬ returns (fst (get_indicators_command raw limit added_after w))).

(** The cycle after a reset, with no condition on the collections: run on
    the state and the mapping the reset leaves, every call carries the
    parsed initial interval. *)
Definition cycle_after_reset_asks_from_interval {T} (E : Collaborators T)
    (initial_interval : pyvalue) (L : Z) (w : world T) : Prop :=
  let w0 := snd (reset_fetch_command w) in
  ∀ range, parse_date_range initial_interval = Return range →
  ∀ r, r ∈ drop (length (requests w0))
               (requests (snd (fetch_indicators_command initial_interval L (persisted w0) w0))) →
    req_added_after r = PyStr (fst range).

(** Every failure of [int] to read its argument becomes the
    [DemistoException] with the given message. *)
Definition parse_failure_is_demisto_exception {T} (E : Collaborators T)
    (x : pyvalue) (err_msg : string) : Prop :=
  (∀ n, py_int x ≠ IntOk n) →
  try_parse_integer x err_msg = Raise (DemistoException err_msg).

(** *** Views of a run of [main] *)

(** The state [main] has reached when it enters its [try] block: the
    command has been announced to the platform log. *)
Definition announced {T} (w : world T) : world T :=
  with_demisto (add_info ("Command being called in " +:+ CONTEXT_PREFIX +:+ " is "
                          +:+ command (demisto w))) w.

(** The state of the [try] block once the client [cl] is built. *)
Definition connected {T} (cl : Taxii2FeedClient T) (w : world T) : world T :=
  with_client (λ _, cl) (announced w).

(** The credentials [main] reads before its [try] block: [username] and
    [password]. *)
Definition main_credentials {T} (w : world T) : outcome (pyvalue * pyvalue) :=
  let credentials := py_or (dict_get (params (demisto w)) "credentials") (PyDict ∅) in
  match credentials_get credentials "identifier" with
  | Return username =>
      match credentials_get credentials "password" with
      | Return password => Return (username, password)
      | Raise e => Raise e
      end
  | Raise e => Raise e
  end.

(** The constructor call of [main], on the parameters of the instance. *)
Definition main_client {T} {E : Collaborators T} (w : world T) (username password : pyvalue)
    : outcome (Taxii2FeedClient T) :=
  new_client (dict_get (params (demisto w)) "url")
             (dict_get (params (demisto w)) "collection_to_fetch")
             (handle_proxy (demisto w))
             (negb (truthy (dict_get_default (params (demisto w)) "insecure" (PyBool false))))
             username password.

(** The error message of the [except] clause of [main]. *)
Definition failure_message {T} {E : Collaborators T} (cmd : string) (e : exn) : string :=
  if is_SSLError e then
    "Encountered an HTTPS certificate error. This error can be ignored by enabling "
    +:+ String (Ascii.ascii_of_nat 34) "Trust any certificate (not secure)"
    +:+ String (Ascii.ascii_of_nat 34) " in the instance configuration."
  else
    "Failed to execute " +:+ cmd +:+ " command. Error: " +:+ exn_str e
    +:+ LF +:+ LF +:+ "traceback: " +:+ format_exc e.

(** The platform after [demisto.createIndicators] was called on each of
    [bs] in turn. *)
Definition add_all_created (bs : list (list indicator)) (d : demisto_state) : demisto_state :=
  foldl (λ d b, add_created b d) d bs.

(** The bound the listing asks with: the start of the parsed range when
    the argument is truthy, the argument itself when it is not. *)
Definition listing_bound {T} {E : Collaborators T} (added_after : pyvalue) : outcome pyvalue :=
  if truthy added_after then
    match parse_date_range added_after with
    | Return range => Return (PyStr (fst range))
    | Raise e => Raise e
    end
  else Return added_after.

(** The commands [main] knows. *)
Definition known_command (cmd : string) : Prop :=
  cmd ∈ ["test-module"; "fetch-indicators"; "taxii2-reset-fetch-indicators";
         "taxii2-get-indicators"; "taxii2-get-collections"].

(** ** Properties *)

Section Properties.

Context {transport : Type} {E : Collaborators transport}.

Implicit Types (w : world transport) (cl : Taxii2FeedClient transport).

(** *** Running a computation *)

Lemma run_bind {A B} (m : M (world transport) A) (k : A → M (world transport) B) w :
  bind m k w = match m w with
               | (Return a, w') => k a w'
               | (Raise e, w') => (Raise e, w')
               end.
Proof. reflexivity. Qed.

Lemma bind_returns_inv {A B} (m : M (world transport) A) (k : A → M (world transport) B) w b w' :
  bind m k w = (Return b, w') →
  ∃ a w1, m w = (Return a, w1) ∧ k a w1 = (Return b, w').
Proof.
  rewrite run_bind. destruct (m w) as [[a|e] w1]; [eauto | discriminate].
Qed.

Lemma run_client_build_iterator limit added_after w :
  client_build_iterator limit added_after w =
  (fst (build_iterator (client w) limit added_after),
   {| client := snd (build_iterator (client w) limit added_after);
      demisto := demisto w;
      requests := requests w ++ [ {| req_collection := collection_to_fetch (client w);
                                     req_limit := limit;
                                     req_added_after := added_after |} ] |}).
Proof.
  unfold client_build_iterator.
  destruct (build_iterator (client w) limit added_after). reflexivity.
Qed.

(** *** Frame rules *)

Section Frame.

Context {X : Type} (f : world transport → X).

Lemma preserves_ret {A} (a : A) : preserves f (ret a).
Proof. intros w. reflexivity. Qed.

Lemma preserves_raise {A} e : preserves f (raise (A := A) e).
Proof. intros w. reflexivity. Qed.

Lemma preserves_gets {A} (g : world transport → A) : preserves f (gets g).
Proof. intros w. reflexivity. Qed.

Lemma preserves_lift {A} (o : outcome A) : preserves f (lift o).
Proof. intros w. reflexivity. Qed.

Lemma preserves_bind {A B} (m : M (world transport) A) (k : A → M (world transport) B) :
  preserves f m → (∀ a, preserves f (k a)) → preserves f (bind m k).
Proof.
  intros Hm Hk w. rewrite run_bind. specialize (Hm w).
  destruct (m w) as [[a|e] w1]; simpl in *; [| exact Hm].
  rewrite Hk. exact Hm.
Qed.

Lemma preserves_try_except {A} (m : M (world transport) A) h :
  preserves f m → (∀ e, preserves f (h e)) → preserves f (try_except m h).
Proof.
  intros Hm Hh w. unfold try_except. specialize (Hm w).
  destruct (m w) as [[a|e] w1]; simpl in *; [exact Hm |].
  destruct (is_Exception e); simpl; [| exact Hm].
  rewrite Hh. exact Hm.
Qed.

Lemma preserves_for_each {A} (xs : list A) (g : A → M (world transport) unit) :
  (∀ x, preserves f (g x)) → preserves f (for_each xs g).
Proof.
  intros Hg. induction xs as [|x xs IH]; simpl.
  - apply preserves_ret.
  - apply preserves_bind; [apply Hg | intros _; exact IH].
Qed.

Lemma preserves_modify (g : world transport → world transport) :
  (∀ w, f (g w) = f w) → preserves f (modify g).
Proof. intros Hg w. apply Hg. Qed.

End Frame.

(** Calling the client touches nothing of the platform. *)
Lemma client_build_iterator_demisto limit added_after :
  preserves (T := transport) demisto (client_build_iterator limit added_after).
Proof.
  intros w. unfold client_build_iterator.
  destruct (build_iterator (client w) limit added_after) as [o cl]. reflexivity.
Qed.

Lemma get_all_demisto colls limit added_after indicators :
  preserves (T := transport) demisto (get_all colls limit added_after indicators).
Proof.
  revert limit indicators.
  induction colls as [|c rest IH]; intros limit indicators; simpl.
  - apply preserves_ret.
  - apply preserves_bind; [apply preserves_modify; reflexivity | intros _].
    apply preserves_bind; [apply client_build_iterator_demisto | intros fetched].
    destruct (limit >=? 0)%Z; [| apply IH].
    destruct (_ <=? 0)%Z; [apply preserves_ret | apply IH].
Qed.

Lemma get_indicators_collect_demisto limit added_after :
  preserves (T := transport) demisto (get_indicators_collect limit added_after).
Proof.
  unfold get_indicators_collect.
  apply preserves_bind; [apply preserves_lift | intros n].
  apply preserves_bind.
  { destruct (truthy added_after); [| apply preserves_ret].
    apply preserves_bind; [apply preserves_lift | intros; apply preserves_ret]. }
  intros aa. apply preserves_bind; [apply preserves_gets | intros [pinned|]].
  - apply client_build_iterator_demisto.
  - apply preserves_bind; [apply preserves_gets | intros [colls|]].
    + apply get_all_demisto.
    + apply preserves_raise.
Qed.

(** *** The on-demand listing *)

Lemma py_eq_str_true (v : pyvalue) (s : string) : py_eq_str v s = true ↔ v = PyStr s.
Proof.
  destruct v; simpl; try (split; [discriminate | congruence]).
  rewrite String.eqb_eq. split; congruence.
Qed.


(** A normal return of the command splits into a normal return of the
    collecting phase followed by the output phase. *)
Lemma get_indicators_command_inv raw limit added_after w r w' :
  get_indicators_command raw limit added_after w = (Return r, w') →
  ∃ indicators w1,
    get_indicators_collect limit added_after w = (Return indicators, w1) ∧
    demisto w1 = demisto w ∧
    get_indicators_output (py_eq_str raw "true") indicators w1 = (Return r, w').
Proof.
  intros Hrun. apply bind_returns_inv in Hrun as (indicators & w1 & Hcollect & Hout).
  exists indicators, w1. split; [exact Hcollect |]. split; [| exact Hout].
  pose proof (get_indicators_collect_demisto limit added_after w) as Hframe.
  rewrite Hcollect in Hframe. exact Hframe.
Qed.



(** C9. Raw-output mode is taken exactly when the argument [raw] is the
    string ["true"].  A run that returns has collected some indicators; if
    [raw] is that string it sends the platform the [rawJSON] payloads of
    those indicators, changes nothing else and returns [None]; for any
    other value it sends nothing and returns the shaped output of those
    same indicators: the markdown string when there is none, and otherwise
    the [CommandResults] under "TAXII2.Indicators" keyed by "value" with the
    indicators as outputs and the markdown as readable output. *)
Theorem raw_mode_iff_true_string raw limit added_after w r w' :
  get_indicators_command raw limit added_after w = (Return r, w') →
  ∃ indicators w1,
    get_indicators_collect limit added_after w = (Return indicators, w1) ∧
    (raw = PyStr "true" ↔ r = ResNone) ∧
    (raw = PyStr "true" →
       w' = with_demisto
              (add_entry (Results (PyDict {[ "indicators" :=
                                               PyList ((λ x, dict_get x "rawJSON") <$> indicators) ]})))
              w1) ∧
    (raw ≠ PyStr "true" →
       let md := "Found " +:+ pretty (length indicators) +:+ " results:" +:+ LF
                 +:+ tableToMarkdown EmptyString indicators ["value"; "type"] in
       w' = w1 ∧
       r = match indicators with
           | [] => ResStr md
           | _ :: _ =>
               ResCommandResults {| outputs_prefix := "TAXII2.Indicators";
                                    outputs_key_field := "value";
                                    outputs := indicators;
                                    readable_output := md |}
           end).
Proof.
  intros Hrun.
  apply get_indicators_command_inv in Hrun as (indicators & w1 & Hcollect & Hhost & Hout).
  exists indicators, w1. split; [exact Hcollect |].
  unfold get_indicators_output in Hout.
  destruct (py_eq_str raw "true") eqn:Hraw.
  - apply py_eq_str_true in Hraw.
    unfold demisto_results in Hout. rewrite run_bind in Hout. simpl in Hout.
    inversion Hout; subst r w'; clear Hout.
    split; [tauto |]. split; [intros _; reflexivity | contradiction].
  - assert (raw ≠ PyStr "true") as Hne.
    { intros ->. simpl in Hraw. discriminate. }
    destruct indicators as [|x rest]; inversion Hout; subst r w'; clear Hout.
    + split; [split; [contradiction | discriminate] |].
      split; [contradiction |]. intros _. cbv zeta. split; reflexivity.
    + split; [split; [contradiction | discriminate] |].
      split; [contradiction |]. intros _. cbv zeta. split; reflexivity.
Qed.


(** *** The persisted cursor is out of reach of the listing *)

Lemma preserves_demisto_persisted {A} (m : M (world transport) A) :
  preserves (T := transport) demisto m → preserves (T := transport) persisted m.
Proof. intros Hm w. unfold persisted. rewrite Hm. reflexivity. Qed.

Lemma get_indicators_output_persisted raw indicators :
  preserves (T := transport) persisted (get_indicators_output raw indicators).
Proof.
  unfold get_indicators_output. destruct raw.
  - apply preserves_bind; [apply preserves_modify; reflexivity | intros; apply preserves_ret].
  - destruct indicators; apply preserves_ret.
Qed.

Lemma get_indicators_command_persisted raw limit added_after :
  preserves (T := transport) persisted (get_indicators_command raw limit added_after).
Proof.
  apply preserves_bind.
  - apply preserves_demisto_persisted, get_indicators_collect_demisto.
  - intros indicators. apply get_indicators_output_persisted.
Qed.

Lemma return_error_persisted {A} msg :
  preserves (T := transport) persisted (return_error (A := A) msg).
Proof.
  apply preserves_bind; [apply preserves_modify; reflexivity | intros; apply preserves_raise].
Qed.

Lemma module_test_command_persisted : preserves (T := transport) persisted module_test_command.
Proof.
  apply preserves_bind; [apply preserves_gets | intros [[|c colls]|]].
  - apply return_error_persisted.
  - apply preserves_modify; reflexivity.
  - apply return_error_persisted.
Qed.

Lemma get_collections_command_persisted : preserves (T := transport) persisted get_collections_command.
Proof.
  apply preserves_bind; [apply preserves_gets | intros [colls|]].
  - apply preserves_ret.
  - apply preserves_raise.
Qed.

Lemma check_kwargs_persisted fname allowed a : preserves (T := transport) persisted (check_kwargs fname allowed a).
Proof.
  unfold check_kwargs. case_bool_decide; [apply preserves_ret | apply preserves_raise].
Qed.

Lemma main_except_persisted cmd e : preserves (T := transport) persisted (main_except cmd e).
Proof.
  unfold main_except. destruct (is_SSLError e).
  - apply preserves_bind; [apply preserves_modify; reflexivity | intros; apply return_error_persisted].
  - apply return_error_persisted.
Qed.

(** Every command but the fetch and the reset runs without writing the
    integration context. *)
Lemma main_dispatch_persisted p a cmd :
  cmd ≠ "fetch-indicators" → cmd ≠ "taxii2-reset-fetch-indicators" →
  preserves (T := transport) persisted (main_dispatch p a cmd).
Proof.
  intros Hfetch Hreset. unfold main_dispatch.
  destruct (String.eqb cmd "test-module"); [apply module_test_command_persisted |].
  apply String.eqb_neq in Hfetch, Hreset. rewrite Hfetch.
  apply preserves_bind; [| intros; apply preserves_modify; reflexivity].
  unfold call_command. rewrite Hreset.
  destruct (String.eqb cmd "taxii2-get-indicators").
  { apply preserves_bind; [apply check_kwargs_persisted | intros _].
    apply get_indicators_command_persisted. }
  destruct (String.eqb cmd "taxii2-get-collections").
  { apply preserves_bind; [apply check_kwargs_persisted | intros _].
    apply get_collections_command_persisted. }
  apply preserves_raise.
Qed.

Lemma main_persisted w :
  command (demisto w) ≠ "fetch-indicators" →
  command (demisto w) ≠ "taxii2-reset-fetch-indicators" →
  persisted (snd (main w)) = persisted w.
Proof.
  intros Hfetch Hreset. unfold main, gets, lift.
  do 2 (rewrite run_bind; cbv beta iota).
  set (credentials := py_or _ _).
  rewrite run_bind; cbv beta iota.
  destruct (credentials_get credentials "identifier") as [username|e]; [| reflexivity].
  rewrite run_bind; cbv beta iota.
  destruct (credentials_get credentials "password") as [password|e]; [| reflexivity].
  do 3 (rewrite run_bind; cbv beta iota). cbn [demisto_info modify].
  match goal with |- persisted (snd (try_except ?m ?h ?w1)) = _ =>
    change (persisted w) with (persisted w1);
    apply (preserves_try_except persisted m h)
  end.
  - apply preserves_bind; [apply preserves_lift | intros cl].
    apply preserves_bind; [apply preserves_modify; reflexivity | intros _].
    apply main_dispatch_persisted; assumption.
  - intros e. apply main_except_persisted.
Qed.

(** The listing does not read the persisted mapping either. *)

Lemma oblivious_ret {A} (a : A) : oblivious (T := transport) (ret a).
Proof. intros ctx w. reflexivity. Qed.

Lemma oblivious_raise {A} e : oblivious (T := transport) (raise (A := A) e).
Proof. intros ctx w. reflexivity. Qed.

Lemma oblivious_lift {A} (o : outcome A) : oblivious (T := transport) (lift o).
Proof. intros ctx w. reflexivity. Qed.

Lemma oblivious_gets_client {A} (g : Taxii2FeedClient transport → A) :
  oblivious (gets (λ w, g (client w))).
Proof. intros ctx w. reflexivity. Qed.

Lemma oblivious_modify_client (g : Taxii2FeedClient transport → Taxii2FeedClient transport) :
  oblivious (modify (with_client g)).
Proof. intros ctx w. reflexivity. Qed.

Lemma oblivious_demisto_results v : oblivious (T := transport) (demisto_results v).
Proof. intros ctx w. reflexivity. Qed.

Lemma oblivious_client_build_iterator limit added_after :
  oblivious (T := transport) (client_build_iterator limit added_after).
Proof. intros ctx w. rewrite !run_client_build_iterator. reflexivity. Qed.

Lemma oblivious_bind {A B} (m : M (world transport) A) (k : A → M (world transport) B) :
  oblivious m → (∀ a, oblivious (k a)) → oblivious (bind m k).
Proof.
  intros Hm Hk ctx w. rewrite !run_bind, Hm.
  destruct (m w) as [[a|e] w1]; cbn [fst snd]; [apply Hk | reflexivity].
Qed.

Lemma get_all_oblivious colls limit added_after indicators :
  oblivious (T := transport) (get_all colls limit added_after indicators).
Proof.
  revert limit indicators.
  induction colls as [|c rest IH]; intros limit indicators; simpl.
  - apply oblivious_ret.
  - apply oblivious_bind; [apply oblivious_modify_client | intros _].
    apply oblivious_bind; [apply oblivious_client_build_iterator | intros fetched_iocs].
    destruct (limit >=? 0)%Z; [| apply IH].
    destruct (_ <=? 0)%Z; [apply oblivious_ret | apply IH].
Qed.

Lemma get_indicators_command_oblivious raw limit added_after :
  oblivious (T := transport) (get_indicators_command raw limit added_after).
Proof.
  apply oblivious_bind.
  - unfold get_indicators_collect.
    apply oblivious_bind; [apply oblivious_lift | intros n].
    apply oblivious_bind.
    { destruct (truthy added_after); [| apply oblivious_ret].
      apply oblivious_bind; [apply oblivious_lift | intros; apply oblivious_ret]. }
    intros aa.
    apply oblivious_bind; [apply (oblivious_gets_client collection_to_fetch) | intros [pinned|]].
    + apply oblivious_client_build_iterator.
    + apply oblivious_bind; [apply (oblivious_gets_client collections) | intros [colls|]].
      * apply get_all_oblivious.
      * apply oblivious_raise.
  - intros indicators. unfold get_indicators_output.
    destruct (py_eq_str raw "true").
    + apply oblivious_bind; [apply oblivious_demisto_results | intros; apply oblivious_ret].
    + destruct indicators; apply oblivious_ret.
Qed.

(** C8. [get_indicators_command] leaves the persisted cursor mapping as it
    found it, for every client, every argument and whether it returns or
    raises; it does not read the mapping, so over any other mapping it takes
    the same course; and a whole run of [main] changes the mapping only
    under the commands [fetch-indicators] and
    [taxii2-reset-fetch-indicators]. *)
Theorem get_indicators_leaves_cursor_unchanged :
  (∀ raw limit added_after w,
     persisted (snd (get_indicators_command raw limit added_after w)) = persisted w) ∧
  (∀ raw limit added_after ctx w,
     get_indicators_command raw limit added_after (repersist ctx w)
     = (fst (get_indicators_command raw limit added_after w),
        repersist ctx (snd (get_indicators_command raw limit added_after w)))) ∧
  (∀ w, command (demisto w) ≠ "fetch-indicators" →
        command (demisto w) ≠ "taxii2-reset-fetch-indicators" →
        persisted (snd (main w)) = persisted w).
Proof.
  split; [| split].
  - intros raw limit added_after. apply get_indicators_command_persisted.
  - intros raw limit added_after. apply get_indicators_command_oblivious.
  - apply main_persisted.
Qed.

(** *** The limit parser *)

(** What [try_parse_integer] makes of each answer of [int]. *)
Lemma try_parse_integer_cases (x : pyvalue) (err_msg : string) :
  (∀ n, py_int x = IntOk n → try_parse_integer x err_msg = Return n) ∧
  (py_int x = IntTypeError ∨ py_int x = IntValueError →
     try_parse_integer x err_msg = Raise (DemistoException err_msg)) ∧
  (py_int x = IntOverflowError →
     try_parse_integer x err_msg = Raise (PyException "OverflowError" OVERFLOW_MSG)).
Proof.
  unfold try_parse_integer. repeat split.
  - intros n ->. reflexivity.
  - intros [-> | ->]; reflexivity.
  - intros ->. reflexivity.
Qed.

(** C6. [try_parse_integer] does not turn every failure of [int] into the
    [DemistoException] with the given message: the [except] clause names
    [TypeError] and [ValueError] only, so on a value for which [int] raises
    [OverflowError], an infinite float, that exception leaves the function
    as it is. *)
Theorem try_parse_integer_lets_overflow_through (x : pyvalue) (err_msg : string) :
  py_int x = IntOverflowError →
  (∀ n, py_int x ≠ IntOk n) ∧
  try_parse_integer x err_msg = Raise (PyException "OverflowError" OVERFLOW_MSG) ∧
  try_parse_integer x err_msg ≠ Raise (DemistoException err_msg).
Proof.
  intros Hint. unfold try_parse_integer. rewrite Hint.
  split; [discriminate |]. split; [reflexivity | discriminate].
Qed.

Lemma try_parse_integer_raises (x : pyvalue) (err_msg : string) e :
  try_parse_integer x err_msg = Raise e →
  e = DemistoException err_msg ∨ e = PyException "OverflowError" OVERFLOW_MSG.
Proof.
  unfold try_parse_integer. destruct (py_int x); [discriminate | | |];
    intros [= <-]; auto.
Qed.

(** *** The limit of a fetch cycle *)

Lemma fetch_all_bound colls initial_interval :
  respects_limit E →
  ∀ limit acc ctx w indicators ctx' w',
    (0 ≤ limit)%Z →
    fetch_all colls initial_interval limit acc ctx w = (Return (indicators, ctx'), w') →
    (Z.of_nat (length indicators) ≤ Z.of_nat (length acc) + limit)%Z.
Proof.
  intros Hclient.
  induction colls as [|c rest IH]; intros limit acc ctx w indicators ctx' w' Hlimit Hrun.
  - inversion Hrun; subst. lia.
  - simpl in Hrun. rewrite run_bind in Hrun. cbn [modify] in Hrun.
    rewrite run_bind, run_client_build_iterator in Hrun.
    destruct (build_iterator _ limit _) as [[fetched|e] cl] eqn:Hcall; [| discriminate].
    apply Hclient in Hcall; [| exact Hlimit]. cbn [fst snd] in Hrun.
    destruct (limit >=? 0)%Z eqn:Hge; [| lia].
    destruct (limit - Z.of_nat (length fetched) <=? 0)%Z eqn:Hle.
    + inversion Hrun; subst. rewrite length_app. lia.
    + rewrite run_bind in Hrun. cbn [gets] in Hrun.
      apply IH in Hrun; [| lia]. rewrite length_app in Hrun. lia.
Qed.

(** When the limit runs out on a collection, the loop returns at once: the
    cursor mapping comes back as it was when the collection was reached,
    without the entry of line 62 for it. *)
Lemma fetch_all_limit_reached c rest initial_interval limit acc ctx w fetched_iocs cl :
  build_iterator (with_collection_to_fetch (Some c) (client w)) limit
    (cursor_or ctx (id c) initial_interval) = (Return fetched_iocs, cl) →
  (0 ≤ limit ≤ Z.of_nat (length fetched_iocs))%Z →
  fst (fetch_all (c :: rest) initial_interval limit acc ctx w)
  = Return (acc ++ fetched_iocs, ctx).
Proof.
  intros Hcall Hlimit. simpl. rewrite run_bind. cbn [modify].
  rewrite run_bind, run_client_build_iterator. cbn [client with_client].
  rewrite Hcall. cbn [fst snd].
  destruct (limit >=? 0)%Z eqn:Hge; [| lia].
  destruct (limit - Z.of_nat (length fetched_iocs) <=? 0)%Z eqn:Hle; [reflexivity | lia].
Qed.

(** The pinned path writes the cursor whatever the limit. *)
Lemma fetch_pinned_writes_cursor initial_interval range limit ctx w pinned fetched_iocs cl :
  parse_date_range initial_interval = Return range →
  collection_to_fetch (client w) = Some pinned →
  build_iterator (client w) limit (cursor_or ctx (id pinned) (fst range))
  = (Return fetched_iocs, cl) →
  collection_to_fetch cl = Some pinned →
  fst (fetch_indicators_command initial_interval limit ctx w)
  = Return (fetched_iocs,
            <[id pinned := if truthy (latest_fetched_indicator_created cl)
                           then latest_fetched_indicator_created cl
                           else cursor_or ctx (id pinned) (fst range)]> ctx).
Proof.
  intros Hrange Hpinned Hcall Hkept. unfold fetch_indicators_command.
  rewrite run_bind. unfold lift at 1. rewrite Hrange.
  rewrite run_bind. cbn [gets]. rewrite Hpinned.
  rewrite run_bind, run_client_build_iterator, Hcall. cbn [fst snd].
  rewrite run_bind. cbn [gets]. rewrite run_bind. cbn [gets client].
  rewrite Hkept. reflexivity.
Qed.

(** C2. With a limit [L] that is not negative and a client that honours
    such limits, a fetch cycle that returns has collected at most [L]
    indicators over all collections. *)
Theorem fetch_indicators_within_limit initial_interval L ctx w indicators ctx' w' :
  respects_limit E →
  (0 ≤ L)%Z →
  fetch_indicators_command initial_interval L ctx w = (Return (indicators, ctx'), w') →
  (Z.of_nat (length indicators) ≤ L)%Z.
Proof.
  intros Hclient HL Hrun. unfold fetch_indicators_command in Hrun.
  apply bind_returns_inv in Hrun as (range & w1 & _ & Hrun).
  apply bind_returns_inv in Hrun as (pinned & w2 & _ & Hrun).
  destruct pinned as [pinned|].
  - apply bind_returns_inv in Hrun as (fetched & w3 & Hcall & Hrun).
    rewrite run_client_build_iterator in Hcall.
    destruct (build_iterator _ L _) as [o cl] eqn:Hcall'.
    cbn [fst snd] in Hcall. inversion Hcall; subst o. clear Hcall.
    apply Hclient in Hcall'; [| exact HL].
    apply bind_returns_inv in Hrun as (latest & w4 & _ & Hrun).
    apply bind_returns_inv in Hrun as (target & w5 & _ & Hrun).
    destruct target; inversion Hrun; subst. exact Hcall'.
  - apply bind_returns_inv in Hrun as (colls & w3 & _ & Hrun).
    destruct colls as [colls|]; [| discriminate].
    apply (fetch_all_bound _ _ Hclient) in Hrun; [| exact HL].
    simpl in Hrun. lia.
Qed.

(** *** What a fetch cycle asks the client *)

Lemma cursor_or_insert_ne (ctx : cursor) cid cid' v initial_interval :
  cid ≠ cid' →
  cursor_or (<[cid := v]> ctx) cid' initial_interval = cursor_or ctx cid' initial_interval.
Proof. intros Hne. unfold cursor_or. rewrite lookup_insert_ne by exact Hne. reflexivity. Qed.

Lemma cursor_or_empty cid initial_interval :
  cursor_or ∅ cid initial_interval = PyStr initial_interval.
Proof. unfold cursor_or. rewrite lookup_empty. reflexivity. Qed.

(** The calls of the loop over the collections: one per collection
    reached, each with the bound read from the cursor mapping the loop
    started with. *)
Lemma fetch_all_requests colls initial_interval :
  NoDup (id <$> colls) →
  ∀ limit acc ctx w,
    ∃ reqs,
      requests (snd (fetch_all colls initial_interval limit acc ctx w)) = requests w ++ reqs ∧
      Forall (λ r, ∃ c, c ∈ colls ∧ req_collection r = Some c ∧
                        req_added_after r = cursor_or ctx (id c) initial_interval) reqs.
Proof.
  induction colls as [|c rest IH]; intros Hdistinct limit acc ctx w.
  - exists []. simpl. rewrite app_nil_r. split; [reflexivity | constructor].
  - rewrite fmap_cons in Hdistinct. apply NoDup_cons in Hdistinct as [Hfresh Hdistinct].
    specialize (IH Hdistinct).
    set (r0 := {| req_collection := Some c; req_limit := limit;
                  req_added_after := cursor_or ctx (id c) initial_interval |}).
    assert (∃ c', c' ∈ c :: rest ∧ req_collection r0 = Some c' ∧
                  req_added_after r0 = cursor_or ctx (id c') initial_interval) as Hr0.
    { exists c. split; [left | split; reflexivity]. }
    assert (∀ latest limit' acc' w1,
              requests w1 = requests w ++ [r0] →
              ∃ reqs,
                requests (snd (fetch_all rest initial_interval limit' acc'
                                 (<[id c := latest]> ctx) w1)) = requests w ++ reqs ∧
                Forall (λ r, ∃ c', c' ∈ c :: rest ∧ req_collection r = Some c' ∧
                             req_added_after r = cursor_or ctx (id c') initial_interval) reqs)
      as Hnext.
    { intros latest limit' acc' w1 Hw1.
      destruct (IH limit' acc' (<[id c := latest]> ctx) w1) as (reqs & Hreqs & Hall).
      exists (r0 :: reqs). split.
      - rewrite Hreqs, Hw1, <- app_assoc. reflexivity.
      - constructor; [exact Hr0 |].
        eapply Forall_impl; [exact Hall |].
        intros r (c' & Hin & Hcoll & Hafter). exists c'.
        split; [right; exact Hin |]. split; [exact Hcoll |].
        rewrite Hafter. apply cursor_or_insert_ne.
        intros Heq. apply Hfresh. rewrite Heq. apply list_elem_of_fmap_2. exact Hin. }
    simpl. rewrite run_bind. cbn [modify]. rewrite run_bind, run_client_build_iterator.
    cbn [client with_client with_collection_to_fetch collection_to_fetch demisto requests].
    fold r0.
    destruct (build_iterator _ limit _) as [[fetched|e] cl]; cbn [fst snd].
    2:{ exists [r0]. split; [reflexivity | constructor; [exact Hr0 | constructor]]. }
    destruct (limit >=? 0)%Z.
    + destruct (_ <=? 0)%Z.
      * exists [r0]. split; [reflexivity | constructor; [exact Hr0 | constructor]].
      * rewrite run_bind. cbn [gets]. apply Hnext. reflexivity.
    + rewrite run_bind. cbn [gets]. apply Hnext. reflexivity.
Qed.

Lemma fetch_indicators_command_requests initial_interval L ctx w :
  (collection_to_fetch (client w) = None → distinct_ids (client w)) →
  ∃ reqs,
    requests (snd (fetch_indicators_command initial_interval L ctx w)) = requests w ++ reqs ∧
    Forall (λ r, ∃ c range,
                 parse_date_range initial_interval = Return range ∧
                 req_collection r = Some c ∧
                 req_added_after r = cursor_or ctx (id c) (fst range)) reqs.
Proof.
  intros Hdistinct. unfold fetch_indicators_command.
  rewrite run_bind. unfold lift at 1.
  destruct (parse_date_range initial_interval) as [range|e] eqn:Hrange.
  2:{ exists []. simpl. rewrite app_nil_r. split; [reflexivity | constructor]. }
  rewrite run_bind. cbn [gets].
  destruct (collection_to_fetch (client w)) as [pinned|] eqn:Hpinned.
  - rewrite run_bind, run_client_build_iterator, Hpinned.
    exists [ {| req_collection := Some pinned; req_limit := L;
                req_added_after := cursor_or ctx (id pinned) (fst range) |} ].
    split.
    + destruct (build_iterator _ L _) as [[fetched|e] cl]; cbn [fst snd]; [| reflexivity].
      rewrite run_bind. cbn [gets]. rewrite run_bind. cbn [gets client collection_to_fetch].
      destruct (collection_to_fetch cl); reflexivity.
    + constructor; [| constructor]. exists pinned, range. auto.
  - rewrite run_bind. cbn [gets].
    destruct (collections (client w)) as [colls|] eqn:Hcolls.
    2:{ exists []. simpl. rewrite app_nil_r. split; [reflexivity | constructor]. }
    destruct (fetch_all_requests colls (fst range) (Hdistinct eq_refl colls Hcolls) L [] ctx w)
      as (reqs & Hreqs & Hall).
    exists reqs. split; [exact Hreqs |].
    eapply Forall_impl; [exact Hall |].
    intros r (c & _ & Hcoll & Hafter). exists c, range. auto.
Qed.

(** C3, as amended. Every call a fetch cycle makes on the client is made for
    one collection, and its [added_after] bound is that collection's entry
    of the persisted cursor mapping whenever the mapping has one, however
    the entry compares with the initial interval, and the parsed initial
    interval when it has none (the collections the client lists carrying
    distinct ids, so that no entry written earlier in the cycle is read
    back). *)
Theorem fetch_added_after_is_cursor_else_interval initial_interval L ctx w :
  (collection_to_fetch (client w) = None → distinct_ids (client w)) →
  ∃ reqs,
    requests (snd (fetch_indicators_command initial_interval L ctx w)) = requests w ++ reqs ∧
    ∀ r, r ∈ reqs →
      ∃ c range,
        parse_date_range initial_interval = Return range ∧
        req_collection r = Some c ∧
        (∀ t, ctx !! id c = Some t → req_added_after r = t) ∧
        (ctx !! id c = None → req_added_after r = PyStr (fst range)).
Proof.
  intros Hdistinct.
  destruct (fetch_indicators_command_requests initial_interval L ctx w Hdistinct)
    as (reqs & Hreqs & Hall).
  exists reqs. split; [exact Hreqs |].
  intros r Hr. rewrite Forall_forall in Hall.
  destruct (Hall r Hr) as (c & range & Hrange & Hcoll & Hafter).
  exists c, range. split; [exact Hrange |]. split; [exact Hcoll |].
  unfold cursor_or in Hafter.
  split.
  - intros t Ht. rewrite Ht in Hafter. exact Hafter.
  - intros Hnone. rewrite Hnone in Hafter. exact Hafter.
Qed.

(** *** The reset and the cycle after it *)

Lemma or_empty_dict (m : cursor) : (if truthy (PyDict m) then m else ∅) = m.
Proof.
  simpl. destruct (Nat.eqb (size m) 0) eqn:Hsize; simpl; [| reflexivity].
  apply Nat.eqb_eq, map_size_empty_inv in Hsize. congruence.
Qed.

Lemma requests_bind_tail {A B} (m : M (world transport) A) (k : A → M (world transport) B) w :
  (∀ a, preserves requests (k a)) →
  requests (snd (bind m k w)) = requests (snd (m w)).
Proof.
  intros Hk. rewrite run_bind. destruct (m w) as [[a|e] w1]; [apply Hk | reflexivity].
Qed.

Lemma requests_try_except {A} (m : M (world transport) A) h w :
  (∀ e, preserves requests (h e)) →
  requests (snd (try_except m h w)) = requests (snd (m w)).
Proof.
  intros Hh. unfold try_except. destruct (m w) as [[a|e] w1]; [reflexivity |].
  destruct (is_Exception e); [apply Hh | reflexivity].
Qed.

Lemma main_except_requests cmd e : preserves (T := transport) requests (main_except cmd e).
Proof.
  assert (∀ msg, preserves (T := transport) requests (return_error (A := unit) msg)) as Herr.
  { intros msg. apply preserves_bind; [apply preserves_modify; reflexivity |].
    intros; apply preserves_raise. }
  unfold main_except. destruct (is_SSLError e); [| apply Herr].
  apply preserves_bind; [apply preserves_modify; reflexivity | intros; apply Herr].
Qed.

(** *** Unresolved collections *)

(** The same exception, at another result type. *)
Lemma raise_retype {A B} (e e' : exn) : @Raise A e = Raise e' → @Raise B e = Raise e'.
Proof. congruence. Qed.

(** The loops raise nothing of their own: an exception that leaves them
    left a call of the client. *)
Lemma fetch_all_raises colls initial_interval limit acc ctx w e :
  fst (fetch_all colls initial_interval limit acc ctx w) = Raise e →
  ∃ cl l added_after, fst (build_iterator cl l added_after) = Raise e.
Proof.
  revert limit acc ctx w.
  induction colls as [|c rest IH]; intros limit acc ctx w Hraise; [discriminate |].
  simpl in Hraise. rewrite run_bind in Hraise. cbn [modify] in Hraise.
  rewrite run_bind, run_client_build_iterator in Hraise.
  destruct (build_iterator _ limit _) as [[fetched|e'] cl] eqn:Hcall; cbn [fst snd] in Hraise.
  2:{ do 3 eexists. rewrite Hcall. cbn [fst]. injection Hraise as ->. reflexivity. }
  destruct (limit >=? 0)%Z.
  - destruct (_ <=? 0)%Z; [discriminate |].
    rewrite run_bind in Hraise. cbn [gets] in Hraise. eapply IH, Hraise.
  - rewrite run_bind in Hraise. cbn [gets] in Hraise. eapply IH, Hraise.
Qed.

Lemma get_all_raises colls limit added_after acc w e :
  fst (get_all colls limit added_after acc w) = Raise e →
  ∃ cl l a, fst (build_iterator cl l a) = Raise e.
Proof.
  revert limit acc w.
  induction colls as [|c rest IH]; intros limit acc w Hraise; [discriminate |].
  simpl in Hraise. rewrite run_bind in Hraise. cbn [modify] in Hraise.
  rewrite run_bind, run_client_build_iterator in Hraise.
  destruct (build_iterator _ limit _) as [[fetched|e'] cl] eqn:Hcall; cbn [fst snd] in Hraise.
  2:{ do 3 eexists. rewrite Hcall. cbn [fst]. injection Hraise as ->. reflexivity. }
  destruct (limit >=? 0)%Z.
  - destruct (_ <=? 0)%Z; [discriminate |]. eapply IH, Hraise.
  - eapply IH, Hraise.
Qed.

Lemma fetch_no_collections initial_interval limit ctx w :
  collection_to_fetch (client w) = None →
  collections (client w) = None →
  fetch_indicators_command initial_interval limit ctx w =
  match parse_date_range initial_interval with
  | Return _ => (Raise (DemistoException ERR_NO_COLL), w)
  | Raise e => (Raise e, w)
  end.
Proof.
  intros Hpinned Hcolls. unfold fetch_indicators_command.
  rewrite run_bind. unfold lift at 1.
  destruct (parse_date_range initial_interval); [| reflexivity].
  rewrite run_bind. cbn [gets]. rewrite Hpinned.
  rewrite run_bind. cbn [gets]. rewrite Hcolls. reflexivity.
Qed.

Lemma get_no_collections raw limit added_after w :
  collection_to_fetch (client w) = None →
  collections (client w) = None →
  get_indicators_command raw limit added_after w =
  match try_parse_integer limit LIMIT_ERR_MSG with
  | Return _ =>
      if truthy added_after then
        match parse_date_range added_after with
        | Return _ => (Raise (DemistoException ERR_NO_COLL), w)
        | Raise e => (Raise e, w)
        end
      else (Raise (DemistoException ERR_NO_COLL), w)
  | Raise e => (Raise e, w)
  end.
Proof.
  intros Hpinned Hcolls. unfold get_indicators_command. rewrite run_bind.
  unfold get_indicators_collect. rewrite run_bind. unfold lift at 1.
  destruct (try_parse_integer limit LIMIT_ERR_MSG); [| reflexivity].
  rewrite run_bind.
  destruct (truthy added_after).
  - rewrite run_bind. unfold lift at 1.
    destruct (parse_date_range added_after); [| reflexivity].
    cbn [ret]. rewrite run_bind. cbn [gets]. rewrite Hpinned.
    rewrite run_bind. cbn [gets]. rewrite Hcolls. reflexivity.
  - cbn [ret]. rewrite run_bind. cbn [gets]. rewrite Hpinned.
    rewrite run_bind. cbn [gets]. rewrite Hcolls. reflexivity.
Qed.

Lemma fetch_resolvable_not_no_coll initial_interval limit ctx w :
  resolvable (client w) →
  (∀ cl l a, fst (build_iterator cl l a) ≠ Raise (DemistoException ERR_NO_COLL)) →
  parse_date_range initial_interval ≠ Raise (DemistoException ERR_NO_COLL) →
  fst (fetch_indicators_command initial_interval limit ctx w) ≠ Raise (DemistoException ERR_NO_COLL).
Proof.
  intros Hres Hclient Hparse. unfold fetch_indicators_command.
  rewrite run_bind. unfold lift at 1.
  destruct (parse_date_range initial_interval) as [range|e].
  2:{ cbn [fst]. intros Heq. eapply Hparse, raise_retype, Heq. }
  rewrite run_bind. cbn [gets].
  destruct (collection_to_fetch (client w)) as [pinned|] eqn:Hpinned.
  - rewrite run_bind, run_client_build_iterator.
    destruct (build_iterator _ limit _) as [[fetched|e] cl] eqn:Hcall; cbn [fst snd].
    + rewrite run_bind. cbn [gets]. rewrite run_bind. cbn [gets client].
      destruct (collection_to_fetch cl); discriminate.
    + intros Hraise. eapply Hclient. rewrite Hcall. eapply raise_retype, Hraise.
  - rewrite run_bind. cbn [gets].
    destruct (collections (client w)) as [colls|] eqn:Hcolls.
    + intros Hraise. apply fetch_all_raises in Hraise as (cl & l & a & Hraise).
      eapply Hclient, Hraise.
    + destruct Hres as [Hres | Hres]; congruence.
Qed.

Lemma get_resolvable_not_no_coll raw limit added_after w :
  resolvable (client w) →
  (∀ cl l a, fst (build_iterator cl l a) ≠ Raise (DemistoException ERR_NO_COLL)) →
  parse_date_range added_after ≠ Raise (DemistoException ERR_NO_COLL) →
  ERR_NO_COLL ≠ LIMIT_ERR_MSG →
  fst (get_indicators_command raw limit added_after w) ≠ Raise (DemistoException ERR_NO_COLL).
Proof.
  intros Hres Hclient Hparse Hmsg Hraise.
  unfold get_indicators_command in Hraise. rewrite run_bind in Hraise.
  destruct (get_indicators_collect limit added_after w) as [[indicators|e] w1] eqn:Hcollect.
  { unfold get_indicators_output in Hraise.
    destruct (py_eq_str raw "true"); [discriminate |].
    destruct indicators; discriminate. }
  cbn [fst] in Hraise. injection Hraise as ->.
  unfold get_indicators_collect in Hcollect.
  rewrite run_bind in Hcollect. unfold lift at 1 in Hcollect.
  pose proof (try_parse_integer_raises limit LIMIT_ERR_MSG) as Hlimit.
  destruct (try_parse_integer limit LIMIT_ERR_MSG) as [n|e].
  2:{ inversion Hcollect; subst e. destruct (Hlimit _ eq_refl) as [Heq | Heq]; congruence. }
  clear Hlimit. rewrite run_bind in Hcollect.
  assert (∃ aa w2, (if truthy added_after
                    then range <- lift (parse_date_range added_after) ;; ret (PyStr (fst range))
                    else ret added_after) w = (Return aa, w2) ∧ client w2 = client w)
    as (aa & w2 & Haa & Hcl).
  { destruct (truthy added_after); [| eauto].
    rewrite run_bind in *. unfold lift at 1 in Hcollect. unfold lift at 1.
    destruct (parse_date_range added_after) as [range|e]; [eauto |].
    inversion Hcollect. subst. exfalso. apply Hparse. reflexivity. }
  rewrite Haa in Hcollect. rewrite run_bind in Hcollect. cbn [gets] in Hcollect.
  rewrite Hcl in Hcollect.
  destruct (collection_to_fetch (client w)) as [pinned|] eqn:Hpinned.
  - rewrite run_client_build_iterator in Hcollect.
    inversion Hcollect as [[Hcall Hw1]]. eapply Hclient, Hcall.
  - rewrite run_bind in Hcollect. cbn [gets] in Hcollect. rewrite Hcl in Hcollect.
    destruct (collections (client w)) as [colls|] eqn:Hcolls.
    + assert (fst (get_all colls n aa [] w2) = Raise (DemistoException ERR_NO_COLL)) as Hraise
        by (rewrite Hcollect; reflexivity).
      apply get_all_raises in Hraise as (cl & l & a & Hraise). eapply Hclient, Hraise.
    + destruct Hres as [Hres | Hres]; congruence.
Qed.

(** An empty collection list is a resolved one: the loop has nothing to
    visit and the cycle returns no indicator and the mapping it was given. *)
Lemma fetch_empty_collection_list initial_interval range limit ctx w :
  parse_date_range initial_interval = Return range →
  collection_to_fetch (client w) = None →
  collections (client w) = Some [] →
  fetch_indicators_command initial_interval limit ctx w = (Return ([], ctx), w).
Proof.
  intros Hrange Hpinned Hcolls. unfold fetch_indicators_command.
  rewrite run_bind. unfold lift at 1. rewrite Hrange.
  rewrite run_bind. cbn [gets]. rewrite Hpinned.
  rewrite run_bind. cbn [gets]. rewrite Hcolls. reflexivity.
Qed.

Lemma get_empty_collection_list limit L added_after bound w :
  try_parse_integer limit LIMIT_ERR_MSG = Return L →
  (if truthy added_after
   then ∃ range, parse_date_range added_after = Return range ∧ bound = PyStr (fst range)
   else bound = added_after) →
  collection_to_fetch (client w) = None →
  collections (client w) = Some [] →
  get_indicators_collect limit added_after w = (Return [], w).
Proof.
  intros Hlimit Hbound Hpinned Hcolls. unfold get_indicators_collect.
  rewrite run_bind. unfold lift at 1. rewrite Hlimit. rewrite run_bind.
  destruct (truthy added_after).
  - destruct Hbound as (range & Hrange & _).
    rewrite run_bind. unfold lift at 1. rewrite Hrange. cbn [ret].
    rewrite run_bind. cbn [gets]. rewrite Hpinned.
    rewrite run_bind. cbn [gets]. rewrite Hcolls. reflexivity.
  - cbn [ret]. rewrite run_bind. cbn [gets]. rewrite Hpinned.
    rewrite run_bind. cbn [gets]. rewrite Hcolls. reflexivity.
Qed.

(** C4, as amended. With no pinned collection and [client.collections]
    being [None], the test the code makes, neither
    [fetch_indicators_command] nor [get_indicators_command] returns: once
    their arguments are parsed they raise [DemistoException(ERR_NO_COLL)]
    and leave the state as it was.  When the client has a pinned collection
    or a collection list, the two commands raise that error only if the
    client or the date parser raised it; and over an empty list, with
    nothing pinned, they return normally with no indicator, the fetch cycle
    handing the cursor mapping back as it was. *)
Theorem no_collections_is_configuration_error w :
  (collection_to_fetch (client w) = None →
   collections (client w) = None →
   (∀ initial_interval limit ctx,
      ¬ returns (fst (fetch_indicators_command initial_interval limit ctx w)) ∧
      (returns (parse_date_range initial_interval) →
       fetch_indicators_command initial_interval limit ctx w
       = (Raise (DemistoException ERR_NO_COLL), w))) ∧
   (∀ raw limit added_after,
      ¬ returns (fst (get_indicators_command raw limit added_after w)) ∧
      (returns (try_parse_integer limit LIMIT_ERR_MSG) →
       (truthy added_after = true → returns (parse_date_range added_after)) →
       get_indicators_command raw limit added_after w
       = (Raise (DemistoException ERR_NO_COLL), w)))) ∧
  (resolvable (client w) →
   (∀ cl l a, fst (build_iterator cl l a) ≠ Raise (DemistoException ERR_NO_COLL)) →
   (∀ v, parse_date_range v ≠ Raise (DemistoException ERR_NO_COLL)) →
   ERR_NO_COLL ≠ LIMIT_ERR_MSG →
   (∀ initial_interval limit ctx,
      fst (fetch_indicators_command initial_interval limit ctx w)
      ≠ Raise (DemistoException ERR_NO_COLL)) ∧
   (∀ raw limit added_after,
      fst (get_indicators_command raw limit added_after w)
      ≠ Raise (DemistoException ERR_NO_COLL))) ∧
  (collection_to_fetch (client w) = None →
   collections (client w) = Some [] →
   (∀ initial_interval limit ctx,
      returns (parse_date_range initial_interval) →
      fetch_indicators_command initial_interval limit ctx w = (Return ([], ctx), w)) ∧
   (∀ raw limit added_after,
      returns (try_parse_integer limit LIMIT_ERR_MSG) →
      (truthy added_after = true → returns (parse_date_range added_after)) →
      get_indicators_collect limit added_after w = (Return [], w) ∧
      returns (fst (get_indicators_command raw limit added_after w)))).
Proof.
  split; [| split].
  - intros Hpinned Hcolls. split.
    + intros initial_interval limit ctx.
      rewrite (fetch_no_collections _ _ _ _ Hpinned Hcolls).
      split.
      * intros [a Ha]. destruct (parse_date_range initial_interval); discriminate.
      * intros [range ->]. reflexivity.
    + intros raw limit added_after.
      rewrite (get_no_collections _ _ _ _ Hpinned Hcolls).
      split.
      * intros [a Ha].
        destruct (try_parse_integer limit LIMIT_ERR_MSG); [| discriminate].
        destruct (truthy added_after); [| discriminate].
        destruct (parse_date_range added_after); discriminate.
      * intros [n ->] Hdate.
        destruct (truthy added_after); [| reflexivity].
        destruct (Hdate eq_refl) as [range ->]. reflexivity.
  - intros Hres Hclient Hparse Hmsg. split.
    + intros initial_interval limit ctx.
      apply fetch_resolvable_not_no_coll; auto.
    + intros raw limit added_after.
      apply get_resolvable_not_no_coll; auto.
  - intros Hpinned Hcolls. split.
    + intros initial_interval limit ctx [range Hrange].
      eapply fetch_empty_collection_list; eassumption.
    + intros raw limit added_after [L HL] Hdate.
      assert (get_indicators_collect limit added_after w = (Return [], w)) as Hcollect.
      { destruct (truthy added_after) eqn:Htruthy.
        - destruct (Hdate eq_refl) as [range Hrange].
          eapply (get_empty_collection_list _ _ _ (PyStr (fst range))); try eassumption.
          rewrite Htruthy. eauto.
        - eapply (get_empty_collection_list _ _ _ added_after); try eassumption.
          rewrite Htruthy. reflexivity. }
      split; [exact Hcollect |].
      unfold get_indicators_command. rewrite run_bind, Hcollect.
      unfold get_indicators_output.
      destruct (py_eq_str raw "true"); [rewrite run_bind |]; eexists; reflexivity.
Qed.

End Properties.

(** ** The handlers on the sample installation *)

Lemma run_returned {A W} (run : outcome A * W) (dflt : A) :
  is_return (fst run) = true →
  run = (Return (returned (fst run) dflt), snd run).
Proof. destruct run as [[a|e] w]; [reflexivity | discriminate]. Qed.

Lemma fetch_run_returned {W} (run : outcome (list indicator * cursor) * W) :
  is_return (fst run) = true →
  run = (Return (fetched run, snd (returned (fst run) ([], ∅))), snd run).
Proof. destruct run as [[[indicators ctx]|e] w]; [reflexivity | discriminate]. Qed.

(** The example of the specification: cursor at 2024-01-01 for "col-1",
    limit 5, three indicators of which the latest was created on
    2024-01-02. *)
Example fetch_cycle_example :
  let run := fetch_indicators_command (E := Sample.collaborators) (PyStr "60 days") 5
               {[ "col-1" := PyStr "2024-01-01T00:00:00Z" ]} (Sample.all [Sample.col_1]) in
  is_return (fst run) = true ∧
  length (fetched run) = 3 ∧
  cursor_after run "col-1" = Some (PyStr "2024-01-02T00:00:00Z").
Proof. cbv zeta. repeat split; vm_compute; reflexivity. Qed.

(** C1. The loop over all collections leaves the cursor of a collection
    behind when the limit runs out on it: with the cursor of "col-1" at
    2024-01-01, limit 3 and three indicators fetched from "col-1", the
    latest created on 2024-01-02, the returned mapping still holds
    2024-01-01 for "col-1", whereas the same fetch with "col-1" pinned moves
    it to 2024-01-02.  And a collection that yields nothing under the loop
    gets the client's [None] as its cursor, where the pinned path keeps the
    bound it asked with. *)
Theorem fetch_all_leaves_cursor_behind :
  let E := Sample.collaborators in
  let ctx : cursor := {[ "col-1" := PyStr "2024-01-01T00:00:00Z" ]} in
  let ctx3 : cursor := {[ "col-3" := PyStr "2024-02-01T00:00:00Z" ]} in
  let looped := fetch_indicators_command (PyStr "60 days") 3 ctx (Sample.all [Sample.col_1]) in
  let pinned := fetch_indicators_command (PyStr "60 days") 3 ctx (Sample.only Sample.col_1) in
  let looped3 := fetch_indicators_command (PyStr "60 days") 5 ctx3 (Sample.all [Sample.col_3]) in
  let pinned3 := fetch_indicators_command (PyStr "60 days") 5 ctx3 (Sample.only Sample.col_3) in
  (is_return (fst looped) = true ∧
   Sample.created_of <$> fetched looped
   = ["2024-01-01T12:00:00Z"; "2024-01-02T00:00:00Z"; "2024-01-01T18:00:00Z"] ∧
   cursor_after looped "col-1" = Some (PyStr "2024-01-01T00:00:00Z")) ∧
  (is_return (fst pinned) = true ∧
   fetched pinned = fetched looped ∧
   cursor_after pinned "col-1" = Some (PyStr "2024-01-02T00:00:00Z")) ∧
  (is_return (fst looped3) = true ∧
   fetched looped3 = [] ∧
   cursor_after looped3 "col-3" = Some PyNone) ∧
  (is_return (fst pinned3) = true ∧
   fetched pinned3 = [] ∧
   cursor_after pinned3 "col-3" = Some (PyStr "2024-02-01T00:00:00Z")).
Proof.
  cbv zeta. repeat split; vm_compute; reflexivity.
Qed.

(** C3, as stated, fails: with the cursor of "col-1" at 2023-06-01 and the
    initial interval parsed to 2024-01-01, the later of the two is the
    initial interval, and the call is made with the cursor. *)
Lemma added_after_is_not_the_later_bound :
  ¬ added_after_is_later_bound Sample.collaborators (PyStr "60 days") 5
      {[ "col-1" := PyStr "2023-06-01T00:00:00Z" ]}
      (Sample.all [Sample.col_1; Sample.col_2]).
Proof.
  intros Hclaim.
  destruct (Hclaim ("2024-01-01T00:00:00Z", "2024-03-01T00:00:00Z") eq_refl
              {| req_collection := Some Sample.col_1; req_limit := 5;
                 req_added_after := PyStr "2023-06-01T00:00:00Z" |})
    as (c & Hcoll & Hafter).
  - vm_compute. left.
  - injection Hcoll as <-. vm_compute in Hafter. discriminate.
Qed.

(** *** Facts about the sample collaborators *)

Lemma sample_respects_limit : respects_limit Sample.collaborators.
Proof.
  intros cl l added_after indicators cl' Hl Hcall.
  cbn [build_iterator Sample.collaborators] in Hcall. unfold Sample.iterator in Hcall.
  destruct (collection_to_fetch cl); [| discriminate].
  injection Hcall as <- _.
  destruct (l <? 0)%Z eqn:Hneg; [lia |].
  rewrite length_take. lia.
Qed.

Lemma sample_ids_distinct : NoDup (id <$> [Sample.col_1; Sample.col_2; Sample.col_3]).
Proof. apply (bool_decide_unpack _). vm_compute. exact I. Qed.

Lemma sample_connect_distinct_ids url pinned proxies verify username password cl :
  new_client (Collaborators := Sample.collaborators) url pinned proxies verify username password
  = Return cl →
  distinct_ids cl.
Proof.
  cbn [new_client Sample.collaborators]. unfold Sample.connect. intros Hcl.
  assert (collections cl = Some [Sample.col_1; Sample.col_2; Sample.col_3]) as Hcolls.
  { destruct pinned; try (injection Hcl as <-; reflexivity).
    destruct (List.find _ _); [injection Hcl as <-; reflexivity | discriminate]. }
  intros colls Hsome. rewrite Hcolls in Hsome. injection Hsome as <-.
  exact sample_ids_distinct.
Qed.

Lemma sample_iterator_no_coll_error (cl : Taxii2FeedClient Sample.server) l a :
  fst (build_iterator (Collaborators := Sample.collaborators) cl l a)
  ≠ Raise (DemistoException (ERR_NO_COLL (Collaborators := Sample.collaborators))).
Proof.
  cbn [build_iterator ERR_NO_COLL Sample.collaborators]. unfold Sample.iterator.
  destruct (collection_to_fetch cl); cbn [fst]; discriminate.
Qed.

Lemma sample_date_range_no_coll_error v :
  parse_date_range (Collaborators := Sample.collaborators) v
  ≠ Raise (DemistoException (ERR_NO_COLL (Collaborators := Sample.collaborators))).
Proof.
  cbn [parse_date_range Sample.collaborators]. unfold Sample.date_range.
  destruct v; try discriminate.
  destruct (String.eqb s "60 days"); [discriminate |].
  destruct (String.eqb s "1 day"); discriminate.
Qed.

(** *** The theorems at concrete inputs *)

Lemma fetch_indicators_within_limit_witness :
  let run := fetch_indicators_command (E := Sample.collaborators) (PyStr "60 days") 4 ∅
               (Sample.all [Sample.col_1; Sample.col_2]) in
  (Z.of_nat (length (fetched run)) ≤ 4)%Z.
Proof.
  cbv zeta.
  eapply (fetch_indicators_within_limit (E := Sample.collaborators)).
  - exact sample_respects_limit.
  - lia.
  - apply fetch_run_returned. vm_compute. reflexivity.
Defined.

Lemma fetch_added_after_is_cursor_else_interval_witness :
  let E := Sample.collaborators in
  let ctx : cursor := {[ "col-1" := PyStr "2023-06-01T00:00:00Z" ]} in
  let w := Sample.all [Sample.col_1; Sample.col_2] in
  ∃ reqs,
    requests (snd (fetch_indicators_command (PyStr "60 days") (-1) ctx w)) = requests w ++ reqs ∧
    ∀ r, r ∈ reqs →
      ∃ c range,
        parse_date_range (PyStr "60 days") = Return range ∧
        req_collection r = Some c ∧
        (∀ t, ctx !! id c = Some t → req_added_after r = t) ∧
        (ctx !! id c = None → req_added_after r = PyStr (fst range)).
Proof.
  cbv zeta.
  apply (fetch_added_after_is_cursor_else_interval (E := Sample.collaborators)).
  intros _ colls Hcolls. injection Hcolls as <-.
  apply (bool_decide_unpack _). vm_compute. exact I.
Defined.

Lemma no_collections_is_configuration_error_witness :
  let E := Sample.collaborators in
  let resolved := Sample.all [Sample.col_1] in
  let empty := Sample.all [] in
  fetch_indicators_command (PyStr "60 days") 5 ∅ Sample.unresolved
  = (Raise (DemistoException ERR_NO_COLL), Sample.unresolved) ∧
  get_indicators_command (PyStr "false") (PyStr "5") PyNone Sample.unresolved
  = (Raise (DemistoException ERR_NO_COLL), Sample.unresolved) ∧
  fst (fetch_indicators_command (PyStr "60 days") 5 ∅ resolved)
  ≠ Raise (DemistoException ERR_NO_COLL) ∧
  fst (get_indicators_command (PyStr "false") (PyStr "5") PyNone resolved)
  ≠ Raise (DemistoException ERR_NO_COLL) ∧
  fetch_indicators_command (PyStr "60 days") 5 ∅ empty = (Return ([], ∅), empty) ∧
  get_indicators_collect (PyStr "5") PyNone empty = (Return [], empty) ∧
  returns (fst (get_indicators_command (PyStr "false") (PyStr "5") PyNone empty)).
Proof.
  cbv zeta.
  pose proof (no_collections_is_configuration_error (E := Sample.collaborators)
                Sample.unresolved) as [Hnone _].
  pose proof (no_collections_is_configuration_error (E := Sample.collaborators)
                (Sample.all [Sample.col_1])) as [_ [Hsome _]].
  pose proof (no_collections_is_configuration_error (E := Sample.collaborators)
                (Sample.all [])) as [_ [_ Hempty]].
  destruct (Hnone eq_refl eq_refl) as [Hfetch Hget].
  destruct (Hempty eq_refl eq_refl) as [Hfetch0 Hget0].
  destruct Hsome as [Hfetch' Hget'].
  - right. discriminate.
  - exact sample_iterator_no_coll_error.
  - exact sample_date_range_no_coll_error.
  - discriminate.
  - split; [| split; [| split; [| split; [| split]]]].
    + apply Hfetch. eexists. reflexivity.
    + apply Hget.
      * eexists. reflexivity.
      * discriminate.
    + apply Hfetch'.
    + apply Hget'.
    + apply Hfetch0. eexists. reflexivity.
    + apply (Hget0 (PyStr "false")).
      * eexists. reflexivity.
      * discriminate.
Defined.

(** C4, as stated, fails when "no collections" counts the empty list: with
    nothing pinned and [client.collections] being [[]], the fetch cycle
    returns, with no indicator. *)
Lemma empty_collection_list_returns :
  ¬ no_collections_never_returns Sample.collaborators (Sample.all []).
Proof.
  intros Hclaim.
  destruct Hclaim as [Hfetch _]; [split; [reflexivity | right; reflexivity] |].
  apply (Hfetch (PyStr "60 days") 5%Z ∅).
  exists ([], ∅). reflexivity.
Qed.

Lemma try_parse_integer_lets_overflow_through_witness :
  let E := Sample.collaborators in
  (∀ n, py_int (PyFloat (FloatInf false)) ≠ IntOk n) ∧
  try_parse_integer (PyFloat (FloatInf false)) LIMIT_ERR_MSG
  = Raise (PyException "OverflowError" OVERFLOW_MSG) ∧
  try_parse_integer (PyFloat (FloatInf false)) LIMIT_ERR_MSG
  ≠ Raise (DemistoException LIMIT_ERR_MSG).
Proof.
  cbv zeta.
  apply (try_parse_integer_lets_overflow_through (E := Sample.collaborators)).
  reflexivity.
Defined.

(** What the limit parser does on the sample reader: a literal is read, a
    string that is none, [None] and a NaN give the [DemistoException], an
    infinite float does not. *)
Example try_parse_integer_examples :
  let E := Sample.collaborators in
  try_parse_integer (PyStr "25") LIMIT_ERR_MSG = Return 25%Z ∧
  try_parse_integer (PyFloat (FloatFinite 5 (-1))) LIMIT_ERR_MSG = Return 2%Z ∧
  try_parse_integer (PyStr "ten") LIMIT_ERR_MSG = Raise (DemistoException LIMIT_ERR_MSG) ∧
  try_parse_integer PyNone LIMIT_ERR_MSG = Raise (DemistoException LIMIT_ERR_MSG) ∧
  try_parse_integer (PyFloat FloatNaN) LIMIT_ERR_MSG = Raise (DemistoException LIMIT_ERR_MSG) ∧
  ¬ parse_failure_is_demisto_exception Sample.collaborators (PyFloat (FloatInf true)) LIMIT_ERR_MSG.
Proof.
  cbv zeta. repeat split; try reflexivity.
  intros Hclaim. discriminate Hclaim. intros n. discriminate.
Qed.


Lemma get_indicators_leaves_cursor_unchanged_witness :
  let E := Sample.collaborators in
  let w := Sample.start (Sample.fresh None None)
             (Sample.platform "taxii2-get-indicators" ∅ {[ "limit" := PyStr "2" ]}
                {[ "col-1" := PyStr "2024-02-01T00:00:00Z" ]}) in
  persisted (snd (main w)) = persisted w.
Proof.
  cbv zeta.
  apply (get_indicators_leaves_cursor_unchanged (E := Sample.collaborators)).
  - discriminate.
  - discriminate.
Defined.

Lemma raw_mode_iff_true_string_witness :
  let E := Sample.collaborators in
  let w := Sample.only Sample.col_2 in
  let run := get_indicators_command (PyStr "True") (PyInt 10) PyNone w in
  ∃ indicators w1,
    get_indicators_collect (PyInt 10) PyNone w = (Return indicators, w1) ∧
    (PyStr "True" = PyStr "true" ↔ returned (fst run) ResNone = ResNone) ∧
    (PyStr "True" = PyStr "true" →
       snd run = with_demisto
                   (add_entry (Results (PyDict {[ "indicators" :=
                                 PyList ((λ x, dict_get x "rawJSON") <$> indicators) ]})))
                   w1) ∧
    (PyStr "True" ≠ PyStr "true" →
       let md := "Found " +:+ pretty (length indicators) +:+ " results:" +:+ LF
                 +:+ tableToMarkdown EmptyString indicators ["value"; "type"] in
       snd run = w1 ∧
       returned (fst run) ResNone
       = match indicators with
         | [] => ResStr md
         | _ :: _ =>
             ResCommandResults {| outputs_prefix := "TAXII2.Indicators";
                                  outputs_key_field := "value";
                                  outputs := indicators;
                                  readable_output := md |}
         end).
Proof.
  cbv zeta.
  apply (raw_mode_iff_true_string (E := Sample.collaborators) (PyStr "True")).
  apply run_returned. vm_compute. reflexivity.
Defined.

(** The two modes on the two indicators of "col-2": the values "True" and
    [True] give the shaped result with both indicators, "true" gives
    [None]. *)
Example raw_argument_examples :
  let E := Sample.collaborators in
  let run raw := get_indicators_command raw (PyInt 10) PyNone (Sample.only Sample.col_2) in
  let shaped r := match r with
                  | ResCommandResults cr => Some (outputs_prefix cr, length (outputs cr))
                  | _ => None
                  end in
  shaped (returned (fst (run (PyStr "True"))) ResNone) = Some ("TAXII2.Indicators", 2%nat) ∧
  shaped (returned (fst (run (PyBool true))) ResNone) = Some ("TAXII2.Indicators", 2%nat) ∧
  fst (run (PyStr "true")) = Return ResNone ∧
  length (entries (demisto (snd (run (PyStr "true"))))) = 1%nat ∧
  length (entries (demisto (snd (run (PyStr "True"))))) = 0%nat.
Proof. cbv zeta. repeat split; vm_compute; reflexivity. Qed.


(** A whole run of [main] under [fetch-indicators] after a reset, with the
    limit 4: both collections reached are asked from the initial interval;
    the cursor of "col-1" is persisted, and the limit runs out on "col-2". *)
Example main_fetch_after_reset_example :
  let E := Sample.collaborators in
  let p : gmap string pyvalue := {[ "initial_interval" := PyStr "60 days"; "limit" := PyStr "4" ]} in
  let w := Sample.start (Sample.fresh None None) (Sample.platform "fetch-indicators" p ∅ ∅) in
  fst (main w) = Return tt ∧
  req_added_after <$> requests (snd (main w))
  = [PyStr "2024-01-01T00:00:00Z"; PyStr "2024-01-01T00:00:00Z"] ∧
  length <$> created_indicators (demisto (snd (main w))) = [4] ∧
  persisted (snd (main w)) !! "col-1" = Some (PyStr "2024-01-02T00:00:00Z") ∧
  persisted (snd (main w)) !! "col-2" = None.
Proof. cbv zeta. repeat split; vm_compute; reflexivity. Qed.

(** ** Further properties of the handlers *)

Section Coverage.

Context {transport : Type} {E : Collaborators transport}.

Implicit Types (w : world transport) (cl : Taxii2FeedClient transport).

(** *** The frame of [main] *)

(** Past the credentials, [main] is its [try] block under its [except]
    clause: the client is built, then the command is dispatched. *)
Lemma main_run w username password :
  main_credentials w = Return (username, password) →
  main w
  = match main_client w username password with
    | Raise e =>
        if is_Exception e then main_except (command (demisto w)) e (announced w)
        else (Raise e, announced w)
    | Return cl =>
        match main_dispatch (params (demisto w)) (args (demisto w)) (command (demisto w))
                (connected cl w) with
        | (Return a, w1) => (Return a, w1)
        | (Raise e, w1) =>
            if is_Exception e then main_except (command (demisto w)) e w1
            else (Raise e, w1)
        end
    end.
Proof.
  unfold main_credentials, main_client, main, gets, lift. intros Hcred.
  do 2 (rewrite run_bind; cbv beta iota).
  set (credentials := py_or _ _) in *.
  rewrite run_bind; cbv beta iota.
  destruct (credentials_get credentials "identifier") as [u|e]; [| discriminate].
  rewrite run_bind; cbv beta iota.
  destruct (credentials_get credentials "password") as [p|e]; [| discriminate].
  injection Hcred as -> ->.
  do 3 (rewrite run_bind; cbv beta iota). cbn [demisto_info modify].
  fold (announced w). unfold try_except. rewrite run_bind; cbv beta iota.
  destruct (new_client _ _ _ _ _ _) as [cl|e]; [| reflexivity].
  rewrite run_bind. cbn [modify]. reflexivity.
Qed.

Lemma run_return_error {A} msg w :
  return_error (A := A) msg w = (Raise SystemExit, with_demisto (add_entry (ReturnError msg)) w).
Proof. reflexivity. Qed.

Lemma run_main_except cmd e w :
  main_except cmd e w
  = (Raise SystemExit,
     with_demisto (add_entry (ReturnError (failure_message cmd e)))
       (if is_SSLError e
        then with_demisto (add_info ("Failed to execute " +:+ cmd +:+ " command. Error: "
                                     +:+ exn_str e +:+ LF +:+ LF +:+ "traceback: "
                                     +:+ format_exc e)) w
        else w)).
Proof.
  unfold main_except, failure_message. destruct (is_SSLError e); reflexivity.
Qed.

(** X1. No exception of the [try] block leaves [main]: past the reading of
    the credentials, a run either returns or ends the process with
    [SystemExit], whatever the client, the parsers and the command do. *)
Theorem main_lets_no_exception_out w username password :
  main_credentials w = Return (username, password) →
  fst (main w) = Return tt ∨ fst (main w) = Raise SystemExit.
Proof.
  intros Hcred. rewrite (main_run w _ _ Hcred).
  assert (∀ e w1, fst (if is_Exception e then main_except (command (demisto w)) e w1
                       else (Raise e, w1)) = Raise SystemExit) as Hhandler.
  { intros e w1. destruct (is_Exception e) eqn:Hexn.
    - rewrite run_main_except. reflexivity.
    - destruct e; try discriminate. reflexivity. }
  destruct (main_client w username password) as [cl|e]; [| right; apply Hhandler].
  destruct (main_dispatch _ _ _ (connected cl w)) as [[[]|e] w1].
  - left. reflexivity.
  - right. apply Hhandler.
Qed.

(** X20. An exception a handler raises does not leave [main]: it is caught
    by the [except] clause and reported to the platform as one error entry,
    which names the command and carries the text of the exception (or the
    certificate hint, for an [SSLError]); the process then ends with
    [SystemExit], and what the handler had done to the persisted mapping,
    to the created indicators and to the client up to the exception stays
    as it is. *)
Theorem main_reports_handler_failure w username password cl e w1 :
  main_credentials w = Return (username, password) →
  main_client w username password = Return cl →
  main_dispatch (params (demisto w)) (args (demisto w)) (command (demisto w)) (connected cl w)
  = (Raise e, w1) →
  is_Exception e = true →
  fst (main w) = Raise SystemExit ∧
  entries (demisto (snd (main w)))
  = entries (demisto w1) ++ [ReturnError (failure_message (command (demisto w)) e)] ∧
  persisted (snd (main w)) = persisted w1 ∧
  created_indicators (demisto (snd (main w))) = created_indicators (demisto w1) ∧
  requests (snd (main w)) = requests w1 ∧
  client (snd (main w)) = client w1.
Proof.
  intros Hcred Hclient Hrun Hexn.
  rewrite (main_run w _ _ Hcred), Hclient, Hrun, Hexn, run_main_except.
  destruct (is_SSLError e); repeat split; reflexivity.
Qed.


(** *** The fetch branch of [main] *)

Lemma created_add_all_created bs d :
  created_indicators (add_all_created bs d) = created_indicators d ++ bs ∧
  integration_context (add_all_created bs d) = integration_context d ∧
  entries (add_all_created bs d) = entries d ∧
  info_log (add_all_created bs d) = info_log d.
Proof.
  unfold add_all_created. revert d.
  induction bs as [|b bs IH]; intros d; simpl.
  - rewrite app_nil_r. auto.
  - destruct (IH (add_created b d)) as (Hc & Hi & He & Hl).
    rewrite Hc, Hi, He, Hl. simpl. rewrite <- app_assoc. auto.
Qed.

Lemma run_for_each_createIndicators bs w :
  for_each bs (demisto_createIndicators (transport := transport)) w
  = (Return tt, with_demisto (add_all_created bs) w).
Proof.
  revert w. induction bs as [|b bs IH]; intros w.
  - destruct w as [cl d reqs]. reflexivity.
  - simpl. rewrite run_bind. cbn [demisto_createIndicators modify]. rewrite IH.
    destruct w as [cl d reqs]. reflexivity.
Qed.

(** The fetch branch, step by step. *)
Lemma main_dispatch_fetch p a w :
  main_dispatch p a "fetch-indicators" w
  = match try_parse_integer (py_or (dict_get p "limit") (PyInt (-1))) LIMIT_ERR_MSG with
    | Raise e => (Raise e, w)
    | Return limit =>
        match fetch_indicators_command (dict_get p "initial_interval") limit (persisted w) w with
        | (Raise e, w1) => (Raise e, w1)
        | (Return fetched, w1) =>
            (Return tt,
             with_demisto (λ d, set_integration_context (snd fetched)
                                  (add_all_created (batch (fst fetched) 2000) d)) w1)
        end
    end.
Proof.
  unfold main_dispatch. cbn [String.eqb Ascii.eqb Bool.eqb].
  rewrite run_bind. unfold lift at 1.
  destruct (try_parse_integer _ LIMIT_ERR_MSG) as [limit|e]; [| reflexivity].
  rewrite run_bind. unfold demisto_getIntegrationContext at 1. cbn [gets].
  rewrite or_empty_dict. rewrite run_bind. fold (persisted w).
  destruct (fetch_indicators_command _ limit (persisted w) w) as [[fetched|e] w1]; [| reflexivity].
  rewrite run_bind, run_for_each_createIndicators.
  destruct w1 as [cl d reqs]. reflexivity.
Qed.

Lemma fetch_all_demisto colls initial_interval limit acc ctx :
  preserves (T := transport) demisto (fetch_all colls initial_interval limit acc ctx).
Proof.
  revert limit acc ctx.
  induction colls as [|c rest IH]; intros limit acc ctx; simpl.
  - apply preserves_ret.
  - apply preserves_bind; [apply preserves_modify; reflexivity | intros _].
    apply preserves_bind; [apply client_build_iterator_demisto | intros fetched_iocs].
    destruct (limit >=? 0)%Z.
    + destruct (_ <=? 0)%Z; [apply preserves_ret |].
      apply preserves_bind; [apply preserves_gets | intros; apply IH].
    + apply preserves_bind; [apply preserves_gets | intros; apply IH].
Qed.

(** The fetch handler itself sends nothing to the platform and persists
    nothing: that is left to [main]. *)
Lemma fetch_indicators_command_demisto initial_interval limit ctx :
  preserves (T := transport) demisto (fetch_indicators_command initial_interval limit ctx).
Proof.
  unfold fetch_indicators_command.
  apply preserves_bind; [apply preserves_lift | intros range].
  apply preserves_bind; [apply preserves_gets | intros [pinned|]].
  - apply preserves_bind; [apply client_build_iterator_demisto | intros indicators].
    apply preserves_bind; [apply preserves_gets | intros latest].
    apply preserves_bind; [apply preserves_gets | intros [target|]].
    + apply preserves_ret.
    + apply preserves_raise.
  - apply preserves_bind; [apply preserves_gets | intros [colls|]].
    + apply fetch_all_demisto.
    + apply preserves_raise.
Qed.

(** X3. A fetch run that succeeds hands the platform the fetched indicators
    in the batches of 2000 that [batch] cuts, then persists exactly the
    cursor mapping [fetch_indicators_command] returned, which it was given
    the persisted mapping to start from; it sends no entry. *)
Theorem main_fetch_persists_returned_cursor w username password cl limit indicators ctx' w1 :
  command (demisto w) = "fetch-indicators" →
  main_credentials w = Return (username, password) →
  main_client w username password = Return cl →
  try_parse_integer (py_or (dict_get (params (demisto w)) "limit") (PyInt (-1))) LIMIT_ERR_MSG
  = Return limit →
  fetch_indicators_command (dict_get (params (demisto w)) "initial_interval") limit
    (persisted w) (connected cl w) = (Return (indicators, ctx'), w1) →
  fst (main w) = Return tt ∧
  persisted (snd (main w)) = ctx' ∧
  created_indicators (demisto (snd (main w)))
  = created_indicators (demisto w) ++ batch indicators 2000 ∧
  entries (demisto (snd (main w))) = entries (demisto w) ∧
  requests (snd (main w)) = requests w1.
Proof.
  intros Hcmd Hcred Hclient Hlimit Hfetch.
  pose proof (fetch_indicators_command_demisto
                (dict_get (params (demisto w)) "initial_interval") limit (persisted w)
                (connected cl w)) as Hframe.
  rewrite Hfetch in Hframe. cbn [snd] in Hframe.
  rewrite (main_run w _ _ Hcred), Hclient, Hcmd, main_dispatch_fetch, Hlimit.
  change (persisted (connected cl w)) with (persisted w). rewrite Hfetch.
  cbn [fst snd with_demisto demisto requests persisted integration_context
       set_integration_context created_indicators entries].
  destruct (created_add_all_created (batch indicators 2000) (demisto w1)) as (Hc & _ & He & _).
  rewrite Hc, He, Hframe. repeat split; reflexivity.
Qed.

(** X4. The cursor is persisted and indicators are created only by a fetch
    run that returns: when a run under [fetch-indicators] ends any other
    way (the client cannot be built, the limit or the interval does not
    parse, the client raises half way through the collections), the
    persisted mapping and the created indicators are what they were. *)
Theorem main_fetch_is_all_or_nothing w username password :
  command (demisto w) = "fetch-indicators" →
  main_credentials w = Return (username, password) →
  fst (main w) ≠ Return tt →
  persisted (snd (main w)) = persisted w ∧
  created_indicators (demisto (snd (main w))) = created_indicators (demisto w).
Proof.
  intros Hcmd Hcred Hfail. revert Hfail.
  rewrite (main_run w _ _ Hcred).
  assert (∀ cmd e w2, persisted w2 = persisted w →
            created_indicators (demisto w2) = created_indicators (demisto w) →
            let r := if is_Exception e then main_except cmd e w2
                     else (Raise e, w2) in
            persisted (snd r) = persisted w ∧
            created_indicators (demisto (snd r)) = created_indicators (demisto w)) as Hhandler.
  { intros cmd e w2 Hp Hc. cbv zeta. destruct (is_Exception e); [| auto].
    rewrite run_main_except. destruct (is_SSLError e); auto. }
  destruct (main_client w username password) as [cl|e].
  2:{ intros _. apply Hhandler; reflexivity. }
  rewrite Hcmd, main_dispatch_fetch.
  destruct (try_parse_integer _ LIMIT_ERR_MSG) as [limit|e].
  2:{ intros _. apply Hhandler; reflexivity. }
  pose proof (fetch_indicators_command_demisto
                (dict_get (params (demisto w)) "initial_interval") limit
                (persisted (connected cl w)) (connected cl w)) as Hframe.
  destruct (fetch_indicators_command _ limit _ (connected cl w)) as [[fetched|e] w1].
  { intros Hfail. exfalso. apply Hfail. reflexivity. }
  intros _. cbn [snd] in Hframe. apply Hhandler.
  - unfold persisted. rewrite Hframe. reflexivity.
  - rewrite Hframe. reflexivity.
Qed.

(** X5. Once the client is built, a limit parameter for which [int] raises
    [TypeError] or [ValueError] ends a fetch run at once: the platform
    receives the error entry that names the command and carries the limit
    message, [build_iterator] is never called, nothing is created and the
    persisted mapping stays. *)
Theorem main_fetch_rejects_bad_limit w username password cl :
  command (demisto w) = "fetch-indicators" →
  main_credentials w = Return (username, password) →
  main_client w username password = Return cl →
  (let limit := py_or (dict_get (params (demisto w)) "limit") (PyInt (-1)) in
   py_int limit = IntTypeError ∨ py_int limit = IntValueError) →
  fst (main w) = Raise SystemExit ∧
  entries (demisto (snd (main w)))
  = entries (demisto w)
    ++ [ReturnError (failure_message "fetch-indicators" (DemistoException LIMIT_ERR_MSG))] ∧
  requests (snd (main w)) = requests w ∧
  created_indicators (demisto (snd (main w))) = created_indicators (demisto w) ∧
  persisted (snd (main w)) = persisted w ∧
  client (snd (main w)) = cl.
Proof.
  intros Hcmd Hcred Hclient Hbad. cbv zeta in Hbad.
  rewrite (main_run w _ _ Hcred), Hclient, Hcmd, main_dispatch_fetch.
  unfold try_parse_integer.
  destruct Hbad as [-> | ->];
    cbn [is_Exception]; rewrite run_main_except; repeat split; reflexivity.
Qed.

(** *** The loop over the collections, one step at a time *)

Lemma fetch_all_cons c rest initial_interval limit acc ctx w :
  fetch_all (c :: rest) initial_interval limit acc ctx w
  = let added_after := cursor_or ctx (id c) initial_interval in
    let call := build_iterator (with_collection_to_fetch (Some c) (client w)) limit added_after in
    let w1 := {| client := snd call; demisto := demisto w;
                 requests := requests w ++ [ {| req_collection := Some c; req_limit := limit;
                                                req_added_after := added_after |} ] |} in
    match fst call with
    | Raise e => (Raise e, w1)
    | Return fetched_iocs =>
        let limit' := (limit - Z.of_nat (length fetched_iocs))%Z in
        if (limit >=? 0)%Z && (limit' <=? 0)%Z then (Return (acc ++ fetched_iocs, ctx), w1)
        else fetch_all rest initial_interval (if (limit >=? 0)%Z then limit' else limit)
               (acc ++ fetched_iocs)
               (<[id c := latest_fetched_indicator_created (snd call)]> ctx) w1
    end.
Proof.
  simpl. rewrite run_bind. cbn [modify]. rewrite run_bind, run_client_build_iterator.
  cbn [client with_client with_collection_to_fetch collection_to_fetch demisto requests fst snd].
  destruct (build_iterator _ limit _) as [[fetched_iocs|e] cl]; cbn [fst snd]; [| reflexivity].
  destruct (limit >=? 0)%Z; cbn [andb].
  - destruct (_ <=? 0)%Z; [reflexivity |]. rewrite run_bind. reflexivity.
  - rewrite run_bind. reflexivity.
Qed.

(** The collections are visited in the order the client lists them, with no
    gap: the calls made are for an initial stretch of the list. *)
Lemma fetch_all_visits colls initial_interval :
  ∀ limit acc ctx w,
    ∃ reqs,
      requests (snd (fetch_all colls initial_interval limit acc ctx w)) = requests w ++ reqs ∧
      req_collection <$> reqs = Some <$> take (length reqs) colls ∧
      (is_return (fst (fetch_all colls initial_interval limit acc ctx w)) = true →
       (limit < 0)%Z → length reqs = length colls).
Proof.
  induction colls as [|c rest IH]; intros limit acc ctx w.
  - exists []. simpl. rewrite app_nil_r. auto.
  - rewrite fetch_all_cons. cbv zeta.
    destruct (build_iterator _ limit _) as [[fetched_iocs|e] cl]; cbn [fst snd].
    2:{ eexists [_]. cbn [snd requests]. split; [reflexivity |].
        split; [reflexivity | discriminate]. }
    destruct ((limit >=? 0)%Z && _) eqn:Hstop.
    { eexists [_]. cbn [snd requests]. split; [reflexivity |]. split; [reflexivity |].
      intros _ Hneg. apply andb_true_iff in Hstop as [Hge _]. lia. }
    match goal with |- context [fetch_all rest _ ?l ?a ?x ?w1] =>
      destruct (IH l a x w1) as (reqs & Hreqs & Hvisit & Hall)
    end.
    eexists (_ :: reqs). rewrite Hreqs. cbn [requests]. rewrite <- app_assoc.
    split; [reflexivity |]. split.
    + cbn [length take fmap list_fmap]. simpl. f_equal. exact Hvisit.
    + intros Hret Hneg. cbn [length]. f_equal.
      destruct (limit >=? 0)%Z eqn:Hge; [lia |]. apply Hall; assumption.
Qed.

(** The limits handed to the client: the first call carries the limit of
    the cycle; a negative limit is handed on unchanged; under a limit that
    is not negative every later call carries what is left of it, which is
    positive. *)
Lemma fetch_all_limits colls initial_interval :
  ∀ limit acc ctx w,
    ∃ reqs,
      requests (snd (fetch_all colls initial_interval limit acc ctx w)) = requests w ++ reqs ∧
      (∀ r, head reqs = Some r → req_limit r = limit) ∧
      ((limit < 0)%Z → Forall (λ r, req_limit r = limit) reqs) ∧
      ((0 ≤ limit)%Z → Forall (λ r, (0 < req_limit r ≤ limit)%Z) (drop 1 reqs)).
Proof.
  induction colls as [|c rest IH]; intros limit acc ctx w.
  - exists []. simpl. rewrite app_nil_r. split; [reflexivity |].
    split; [discriminate |]. split; constructor.
  - rewrite fetch_all_cons. cbv zeta.
    assert (∀ w1 : world transport,
              requests w1 = requests w ++ [ {| req_collection := Some c; req_limit := limit;
                  req_added_after := cursor_or ctx (id c) initial_interval |} ] →
              ∃ reqs, requests w1 = requests w ++ reqs ∧
                (∀ r, head reqs = Some r → req_limit r = limit) ∧
                ((limit < 0)%Z → Forall (λ r, req_limit r = limit) reqs) ∧
                ((0 ≤ limit)%Z → Forall (λ r, (0 < req_limit r ≤ limit)%Z) (drop 1 reqs)))
      as Hone.
    { intros w1 Hw1. eexists [_]. split; [exact Hw1 |].
      split; [intros r [= <-]; reflexivity |].
      split; intros _; repeat constructor. }
    destruct (build_iterator _ limit _) as [[fetched_iocs|e] cl]; cbn [fst snd].
    2:{ apply Hone. reflexivity. }
    destruct ((limit >=? 0)%Z && _) eqn:Hstop; [apply Hone; reflexivity |].
    match goal with |- context [fetch_all rest _ ?l ?a ?x ?w1] =>
      destruct (IH l a x w1) as (reqs & Hreqs & Hhead & Hneg & Hpos)
    end.
    eexists (_ :: reqs). rewrite Hreqs. cbn [requests]. rewrite <- app_assoc.
    split; [reflexivity |].
    split; [intros r [= <-]; reflexivity |]. split.
    + intros Hlt. constructor; [reflexivity |].
      destruct (limit >=? 0)%Z eqn:Hge; [lia |]. apply Hneg. exact Hlt.
    + intros Hle. destruct (limit >=? 0)%Z eqn:Hge; [| lia]. cbn [andb] in Hstop.
      apply Z.leb_gt in Hstop. cbn [drop].
      destruct reqs as [|r1 reqs']; [constructor |].
      constructor.
      * rewrite (Hhead r1 eq_refl). lia.
      * eapply Forall_impl; [apply Hpos; lia |]. intros r Hr. cbv beta in Hr. lia.
Qed.

(** What the loop does to the cursor mapping when it returns: it writes
    only under the ids of the collections it was given, it removes no
    entry, and under a negative limit it writes one for every collection. *)
Lemma fetch_all_cursor colls initial_interval :
  ∀ limit acc ctx w indicators ctx' w',
    fetch_all colls initial_interval limit acc ctx w = (Return (indicators, ctx'), w') →
    (∀ cid, cid ∉ id <$> colls → ctx' !! cid = ctx !! cid) ∧
    (∀ cid, is_Some (ctx !! cid) → is_Some (ctx' !! cid)) ∧
    ((limit < 0)%Z → ∀ c, c ∈ colls → is_Some (ctx' !! id c)).
Proof.
  induction colls as [|c rest IH]; intros limit acc ctx w indicators ctx' w' Hrun.
  - injection Hrun as _ <- _. split; [auto |]. split; [auto |].
    intros _ c Hc. inversion Hc.
  - rewrite fetch_all_cons in Hrun. cbv zeta in Hrun.
    destruct (build_iterator _ limit _) as [[fetched_iocs|e] cl]; cbn [fst snd] in Hrun;
      [| discriminate].
    destruct ((limit >=? 0)%Z && _) eqn:Hstop.
    { injection Hrun as _ <- _. split; [auto |]. split; [auto |].
      intros Hneg. apply andb_true_iff in Hstop as [Hge _]. lia. }
    apply IH in Hrun as (Hframe & Hkeep & Hall).
    split; [| split].
    + intros cid Hcid. rewrite fmap_cons, not_elem_of_cons in Hcid.
      destruct Hcid as [Hne Hcid]. rewrite (Hframe cid Hcid).
      apply lookup_insert_ne. congruence.
    + intros cid Hsome. apply Hkeep.
      destruct (decide (id c = cid)) as [<-|Hne].
      * rewrite lookup_insert_eq. eauto.
      * rewrite lookup_insert_ne by exact Hne. exact Hsome.
    + intros Hneg c' Hc'. destruct (limit >=? 0)%Z eqn:Hge; [lia |].
      apply elem_of_cons in Hc' as [-> | Hc']; [| apply (Hall Hneg), Hc'].
      apply Hkeep. rewrite lookup_insert_eq. eauto.
Qed.

(** *** The fetch cycle over all collections *)

Lemma fetch_all_mode initial_interval L ctx w colls :
  collection_to_fetch (client w) = None →
  collections (client w) = Some colls →
  fetch_indicators_command initial_interval L ctx w
  = match parse_date_range initial_interval with
    | Return range => fetch_all colls (fst range) L [] ctx w
    | Raise e => (Raise e, w)
    end.
Proof.
  intros Hpinned Hcolls. unfold fetch_indicators_command.
  rewrite run_bind. unfold lift at 1.
  destruct (parse_date_range initial_interval) as [range|e]; [| reflexivity].
  rewrite run_bind. cbn [gets]. rewrite Hpinned.
  rewrite run_bind. cbn [gets]. rewrite Hcolls. reflexivity.
Qed.

(** X6. With nothing pinned, a fetch cycle calls the client once per
    collection, in the order the client lists them and without a gap, until
    it stops: the calls made are for an initial stretch of
    [client.collections], whether the cycle returns or raises. *)
Theorem fetch_visits_collections_in_order initial_interval L ctx w colls :
  collection_to_fetch (client w) = None →
  collections (client w) = Some colls →
  ∃ reqs,
    requests (snd (fetch_indicators_command initial_interval L ctx w)) = requests w ++ reqs ∧
    req_collection <$> reqs = Some <$> take (length reqs) colls.
Proof.
  intros Hpinned Hcolls. rewrite (fetch_all_mode _ _ _ _ _ Hpinned Hcolls).
  destruct (parse_date_range initial_interval) as [range|e].
  - destruct (fetch_all_visits colls (fst range) L [] ctx w) as (reqs & Hreqs & Hvisit & _).
    eauto.
  - exists []. simpl. rewrite app_nil_r. auto.
Qed.

(** X7. A negative limit means no limit: with nothing pinned, a cycle that
    returns has called the client for every collection of the list, each
    time with that same negative limit, and the returned mapping has a
    cursor for every one of them. *)
Theorem fetch_unbounded_visits_every_collection initial_interval L ctx w colls indicators ctx' w' :
  (L < 0)%Z →
  collection_to_fetch (client w) = None →
  collections (client w) = Some colls →
  fetch_indicators_command initial_interval L ctx w = (Return (indicators, ctx'), w') →
  ∃ reqs,
    requests w' = requests w ++ reqs ∧
    req_collection <$> reqs = Some <$> colls ∧
    Forall (λ r, req_limit r = L) reqs ∧
    ∀ c, c ∈ colls → is_Some (ctx' !! id c).
Proof.
  intros HL Hpinned Hcolls. rewrite (fetch_all_mode _ _ _ _ _ Hpinned Hcolls).
  destruct (parse_date_range initial_interval) as [range|e]; [| discriminate].
  intros Hrun.
  destruct (fetch_all_visits colls (fst range) L [] ctx w) as (reqs & Hreqs & Hvisit & Hall).
  destruct (fetch_all_limits colls (fst range) L [] ctx w) as (reqs' & Hreqs' & _ & Hneg & _).
  pose proof (fetch_all_cursor colls (fst range) L [] ctx w _ _ _ Hrun) as (_ & _ & Hcursor).
  rewrite Hrun in Hreqs, Hreqs', Hall. cbn [fst snd is_return] in *.
  assert (reqs' = reqs) as ->.
  { apply (app_inv_head (requests w)). rewrite <- Hreqs, <- Hreqs'. reflexivity. }
  exists reqs. split; [exact Hreqs |]. split.
  - rewrite Hvisit, (Hall eq_refl HL), firstn_all. reflexivity.
  - split; [apply Hneg, HL | apply Hcursor, HL].
Qed.


(** X9. With nothing pinned, a cycle that returns has written cursors only
    under the ids of the collections the client lists, and has removed
    none: every other entry of the mapping comes back as it was, and every
    id that had a cursor still has one. *)
Theorem fetch_writes_only_listed_cursors initial_interval L ctx w colls indicators ctx' w' :
  collection_to_fetch (client w) = None →
  collections (client w) = Some colls →
  fetch_indicators_command initial_interval L ctx w = (Return (indicators, ctx'), w') →
  (∀ cid, cid ∉ id <$> colls → ctx' !! cid = ctx !! cid) ∧
  (∀ cid, is_Some (ctx !! cid) → is_Some (ctx' !! cid)).
Proof.
  intros Hpinned Hcolls. rewrite (fetch_all_mode _ _ _ _ _ Hpinned Hcolls).
  destruct (parse_date_range initial_interval) as [range|e]; [| discriminate].
  intros Hrun. apply fetch_all_cursor in Hrun as (Hframe & Hkeep & _). auto.
Qed.

(** X10. With a collection pinned, the cycle makes one call, for that
    collection, and always writes its cursor, whatever the limit: the
    client's latest creation time when it has one, and otherwise the bound
    the call was made with, so that a fetch of nothing leaves the cursor
    where it was (or at the initial interval).  No other entry changes. *)
Theorem fetch_pinned_cursor initial_interval range L ctx w pinned fetched_iocs cl :
  parse_date_range initial_interval = Return range →
  collection_to_fetch (client w) = Some pinned →
  build_iterator (client w) L (cursor_or ctx (id pinned) (fst range)) = (Return fetched_iocs, cl) →
  collection_to_fetch cl = Some pinned →
  ∃ ctx' w',
    fetch_indicators_command initial_interval L ctx w = (Return (fetched_iocs, ctx'), w') ∧
    ctx' !! id pinned
    = Some (if truthy (latest_fetched_indicator_created cl)
            then latest_fetched_indicator_created cl
            else cursor_or ctx (id pinned) (fst range)) ∧
    (∀ cid, cid ≠ id pinned → ctx' !! cid = ctx !! cid) ∧
    requests w' = requests w ++ [ {| req_collection := Some pinned; req_limit := L;
                                     req_added_after := cursor_or ctx (id pinned) (fst range) |} ].
Proof.
  intros Hrange Hpinned Hcall Hkept. unfold fetch_indicators_command.
  rewrite run_bind. unfold lift at 1. rewrite Hrange.
  rewrite run_bind. cbn [gets]. rewrite Hpinned.
  rewrite run_bind, run_client_build_iterator, Hcall, Hpinned. cbn [fst snd].
  rewrite run_bind. cbn [gets]. rewrite run_bind. cbn [gets client].
  rewrite Hkept. eexists _, _. split; [reflexivity |].
  split; [apply lookup_insert_eq |].
  split; [| reflexivity].
  intros cid Hne. apply lookup_insert_ne. congruence.
Qed.

(** *** The on-demand listing, call by call *)

Lemma get_all_cons c rest limit added_after acc w :
  get_all (c :: rest) limit added_after acc w
  = let call := build_iterator (with_collection_to_fetch (Some c) (client w)) limit added_after in
    let w1 := {| client := snd call; demisto := demisto w;
                 requests := requests w ++ [ {| req_collection := Some c; req_limit := limit;
                                                req_added_after := added_after |} ] |} in
    match fst call with
    | Raise e => (Raise e, w1)
    | Return fetched_iocs =>
        let limit' := (limit - Z.of_nat (length fetched_iocs))%Z in
        if (limit >=? 0)%Z && (limit' <=? 0)%Z then (Return (acc ++ fetched_iocs), w1)
        else get_all rest (if (limit >=? 0)%Z then limit' else limit) added_after
               (acc ++ fetched_iocs) w1
    end.
Proof.
  simpl. rewrite run_bind. cbn [modify]. rewrite run_bind, run_client_build_iterator.
  cbn [client with_client with_collection_to_fetch collection_to_fetch demisto requests fst snd].
  destruct (build_iterator _ limit _) as [[fetched_iocs|e] cl]; cbn [fst snd]; [| reflexivity].
  destruct (limit >=? 0)%Z; cbn [andb]; [| reflexivity].
  destruct (_ <=? 0)%Z; reflexivity.
Qed.

Lemma get_all_bound colls added_after :
  respects_limit E →
  ∀ limit acc w indicators w',
    (0 ≤ limit)%Z →
    get_all colls limit added_after acc w = (Return indicators, w') →
    (Z.of_nat (length indicators) ≤ Z.of_nat (length acc) + limit)%Z.
Proof.
  intros Hclient.
  induction colls as [|c rest IH]; intros limit acc w indicators w' Hlimit Hrun.
  - injection Hrun as <- _. lia.
  - rewrite get_all_cons in Hrun. cbv zeta in Hrun.
    destruct (build_iterator _ limit _) as [[fetched_iocs|e] cl] eqn:Hcall;
      cbn [fst snd] in Hrun; [| discriminate].
    apply Hclient in Hcall; [| exact Hlimit].
    destruct (limit >=? 0)%Z eqn:Hge; [| lia]. cbn [andb] in Hrun.
    destruct (_ <=? 0)%Z eqn:Hle.
    + injection Hrun as <- _. rewrite length_app. lia.
    + apply IH in Hrun; [| lia]. rewrite length_app in Hrun. lia.
Qed.

Lemma get_all_requests colls added_after :
  ∀ limit acc w,
    ∃ reqs,
      requests (snd (get_all colls limit added_after acc w)) = requests w ++ reqs ∧
      Forall (λ r, req_added_after r = added_after) reqs ∧
      req_collection <$> reqs = Some <$> take (length reqs) colls.
Proof.
  induction colls as [|c rest IH]; intros limit acc w.
  - exists []. simpl. rewrite app_nil_r. auto.
  - rewrite get_all_cons. cbv zeta.
    destruct (build_iterator _ limit _) as [[fetched_iocs|e] cl]; cbn [fst snd].
    2:{ eexists [_]. split; [reflexivity |]. split; [repeat constructor | reflexivity]. }
    destruct ((limit >=? 0)%Z && _).
    { eexists [_]. split; [reflexivity |]. split; [repeat constructor | reflexivity]. }
    match goal with |- context [get_all rest ?l _ ?a ?w1] =>
      destruct (IH l a w1) as (reqs & Hreqs & Hall & Hvisit)
    end.
    eexists (_ :: reqs). rewrite Hreqs. cbn [requests]. rewrite <- app_assoc.
    split; [reflexivity |]. split; [constructor; [reflexivity | exact Hall] |].
    simpl. f_equal. exact Hvisit.
Qed.

(** The collecting phase, by cases on its arguments. *)
Lemma get_indicators_collect_run limit added_after w :
  get_indicators_collect limit added_after w
  = match try_parse_integer limit LIMIT_ERR_MSG with
    | Raise e => (Raise e, w)
    | Return L =>
        match listing_bound added_after with
        | Raise e => (Raise e, w)
        | Return bound =>
            match collection_to_fetch (client w) with
            | Some _ => client_build_iterator L bound w
            | None =>
                match collections (client w) with
                | Some colls => get_all colls L bound [] w
                | None => (Raise (DemistoException ERR_NO_COLL), w)
                end
            end
        end
    end.
Proof.
  unfold get_indicators_collect, listing_bound. rewrite run_bind. unfold lift at 1.
  destruct (try_parse_integer limit LIMIT_ERR_MSG) as [L|e]; [| reflexivity].
  rewrite run_bind.
  destruct (truthy added_after).
  - rewrite run_bind. unfold lift at 1.
    destruct (parse_date_range added_after) as [range|e]; [| reflexivity].
    cbn [ret]. rewrite run_bind. cbn [gets].
    destruct (collection_to_fetch (client w)); [reflexivity |].
    rewrite run_bind. cbn [gets]. destruct (collections (client w)); reflexivity.
  - cbn [ret]. rewrite run_bind. cbn [gets].
    destruct (collection_to_fetch (client w)); [reflexivity |].
    rewrite run_bind. cbn [gets]. destruct (collections (client w)); reflexivity.
Qed.

(** The output phase changes neither the client nor the history of its
    calls. *)
Lemma get_indicators_output_requests raw indicators :
  preserves (T := transport) requests (get_indicators_output raw indicators).
Proof.
  unfold get_indicators_output. destruct raw.
  - apply preserves_bind; [apply preserves_modify; reflexivity | intros; apply preserves_ret].
  - destruct indicators; apply preserves_ret.
Qed.

(** X11. The listing honours its limit as the fetch cycle does: when the
    limit argument reads as [L], not negative, and the client honours
    limits, the indicators collected over all collections, and so the
    outputs of the [CommandResults], are at most [L]. *)
Theorem get_indicators_within_limit raw limit added_after L w :
  respects_limit E →
  try_parse_integer limit LIMIT_ERR_MSG = Return L →
  (0 ≤ L)%Z →
  (∀ indicators w',
     get_indicators_collect limit added_after w = (Return indicators, w') →
     (Z.of_nat (length indicators) ≤ L)%Z) ∧
  (∀ cr w',
     get_indicators_command raw limit added_after w = (Return (ResCommandResults cr), w') →
     (Z.of_nat (length (outputs cr)) ≤ L)%Z).
Proof.
  intros Hclient Hlimit HL.
  assert (∀ indicators w',
            get_indicators_collect limit added_after w = (Return indicators, w') →
            (Z.of_nat (length indicators) ≤ L)%Z) as Hcollect.
  { intros indicators w'. rewrite get_indicators_collect_run, Hlimit.
    destruct (listing_bound added_after) as [bound|e]; [| discriminate].
    destruct (collection_to_fetch (client w)) as [pinned|].
    - rewrite run_client_build_iterator.
      destruct (build_iterator (client w) L bound) as [o cl] eqn:Hcall. cbn [fst snd].
      intros [= -> _]. eapply Hclient; [exact HL | exact Hcall].
    - destruct (collections (client w)) as [colls|]; [| discriminate].
      intros Hrun. apply (get_all_bound _ _ Hclient) in Hrun; [| exact HL].
      simpl in Hrun. lia. }
  split; [exact Hcollect |].
  intros cr w' Hrun.
  apply bind_returns_inv in Hrun as (indicators & w1 & Hrun & Hout).
  apply Hcollect in Hrun. unfold get_indicators_output in Hout.
  destruct (py_eq_str raw "true").
  - rewrite run_bind in Hout. discriminate.
  - destruct indicators; [discriminate |]. injection Hout as <- _. exact Hrun.
Qed.

(** X12. The listing asks every collection with one and the same bound,
    which owes nothing to the persisted cursors: the start of the parsed
    range when the [added_after] argument is truthy, and the argument as it
    stands (by default [None], no bound) when it is not.  With nothing
    pinned the calls are for an initial stretch of [client.collections], in
    order. *)
Theorem get_indicators_asks_with_one_bound raw limit added_after w :
  ∃ reqs,
    requests (snd (get_indicators_command raw limit added_after w)) = requests w ++ reqs ∧
    (∀ r, r ∈ reqs → listing_bound added_after = Return (req_added_after r)) ∧
    (∀ colls, collection_to_fetch (client w) = None → collections (client w) = Some colls →
              req_collection <$> reqs = Some <$> take (length reqs) colls).
Proof.
  unfold get_indicators_command. rewrite requests_bind_tail
    by (intros; apply get_indicators_output_requests).
  rewrite get_indicators_collect_run.
  assert (∃ reqs : list request, requests w = requests w ++ reqs ∧
            (∀ r, r ∈ reqs → listing_bound added_after = Return (req_added_after r)) ∧
            (∀ colls, collection_to_fetch (client w) = None → collections (client w) = Some colls →
                      req_collection <$> reqs = Some <$> take (length reqs) colls)) as Hnone.
  { exists []. rewrite app_nil_r. split; [reflexivity |]. split; [| reflexivity].
    intros r Hr. inversion Hr. }
  destruct (try_parse_integer limit LIMIT_ERR_MSG) as [L|e]; [| exact Hnone].
  destruct (listing_bound added_after) as [bound|e]; [| exact Hnone].
  destruct (collection_to_fetch (client w)) as [pinned|] eqn:Hpinned.
  - rewrite run_client_build_iterator. eexists [_]. cbn [snd requests].
    split; [reflexivity |]. split; [| discriminate].
    intros r Hr. apply list_elem_of_singleton in Hr as ->. reflexivity.
  - destruct (collections (client w)) as [colls|] eqn:Hcolls; [| exact Hnone].
    destruct (get_all_requests colls bound L [] w) as (reqs & Hreqs & Hall & Hvisit).
    exists reqs. split; [exact Hreqs |]. split.
    + intros r Hr. rewrite Forall_forall in Hall. rewrite (Hall r Hr). reflexivity.
    + intros colls' _ [= <-]. exact Hvisit.
Qed.

(** X13. A limit argument for which [int] raises [TypeError] or
    [ValueError] ends the listing before anything else is looked at:
    [DemistoException] with the limit message is raised even when no
    collection is resolved or the [added_after] argument would not parse,
    no call reaches the client and the state is as it was. *)
Theorem get_indicators_rejects_bad_limit raw limit added_after w :
  py_int limit = IntTypeError ∨ py_int limit = IntValueError →
  get_indicators_command raw limit added_after w
  = (Raise (DemistoException LIMIT_ERR_MSG), w).
Proof.
  intros Hbad. unfold get_indicators_command.
  rewrite run_bind, get_indicators_collect_run. unfold try_parse_integer.
  destruct Hbad as [-> | ->]; reflexivity.
Qed.

(** *** The other commands *)

(** X14. [get_collections_command] reports the collections of the client
    one row each, in the client's order, the title under "Name" and the id
    under "ID", keyed by "ID" under the prefix "TAXII2.Collections"; it
    calls nothing on the client and changes nothing, and an empty list
    gives an empty report, not an error. *)
Theorem get_collections_lists_every_collection w colls :
  collections (client w) = Some colls →
  ∃ cr,
    get_collections_command w = (Return (ResCommandResults cr), w) ∧
    outputs_prefix cr = "TAXII2.Collections" ∧
    outputs_key_field cr = "ID" ∧
    readable_output cr = tableToMarkdown "TAXII2 Server Collections:" (outputs cr) ["Name"; "ID"] ∧
    length (outputs cr) = length colls ∧
    ∀ i c, colls !! i = Some c →
      ∃ row, outputs cr !! i = Some row ∧
             row !! "Name" = Some (PyStr (title c)) ∧
             row !! "ID" = Some (PyStr (id c)) ∧
             ∀ k, k ≠ "Name" → k ≠ "ID" → row !! k = None.
Proof.
  intros Hcolls. unfold get_collections_command. rewrite run_bind. cbn [gets].
  rewrite Hcolls. eexists. split; [reflexivity |]. cbn.
  split; [reflexivity |]. split; [reflexivity |]. split; [reflexivity |].
  split; [apply length_fmap |].
  intros i c Hc. eexists. split; [rewrite list_lookup_fmap, Hc; reflexivity |].
  split; [apply lookup_insert_eq |].
  split; [rewrite lookup_insert_ne by discriminate; apply lookup_singleton_eq |].
  intros k Hname Hid. rewrite lookup_insert_ne by congruence.
  apply lookup_singleton_ne. congruence.
Qed.

(** X15. The connectivity test, run through [main], answers "ok" exactly
    when the client that was built lists at least one collection; a client
    with no list or an empty list gets "Could not connect to server", and
    this failure reaches the platform once: the [SystemExit] of
    [return_error] passes the [except Exception] clause untouched. *)
Theorem main_test_module w username password cl :
  command (demisto w) = "test-module" →
  main_credentials w = Return (username, password) →
  main_client w username password = Return cl →
  entries (demisto (snd (main w)))
  = entries (demisto w)
    ++ [match collections cl with
        | Some (_ :: _) => Results (PyStr "ok")
        | _ => ReturnError "Could not connect to server"
        end] ∧
  (fst (main w) = Return tt ↔ ∃ c rest, collections cl = Some (c :: rest)) ∧
  requests (snd (main w)) = requests w ∧
  persisted (snd (main w)) = persisted w.
Proof.
  intros Hcmd Hcred Hclient. rewrite (main_run w _ _ Hcred), Hclient, Hcmd.
  unfold main_dispatch. cbn [String.eqb Ascii.eqb Bool.eqb].
  unfold module_test_command. rewrite run_bind. cbn [gets connected with_client client].
  destruct (collections cl) as [[|c rest]|].
  - rewrite run_return_error. cbn [is_Exception fst snd].
    repeat split; try reflexivity; [discriminate | intros (c & rest & Hc); discriminate].
  - cbn [demisto_results modify fst snd].
    repeat split; try reflexivity. eauto.
  - rewrite run_return_error. cbn [is_Exception fst snd].
    repeat split; try reflexivity; [discriminate | intros (c & rest & Hc); discriminate].
Qed.

Lemma known_command_eqb cmd :
  ¬ known_command cmd →
  String.eqb cmd "test-module" = false ∧
  String.eqb cmd "fetch-indicators" = false ∧
  String.eqb cmd "taxii2-reset-fetch-indicators" = false ∧
  String.eqb cmd "taxii2-get-indicators" = false ∧
  String.eqb cmd "taxii2-get-collections" = false.
Proof.
  unfold known_command. intros Hnot.
  repeat split; apply String.eqb_neq; intros ->; apply Hnot; set_solver.
Qed.

(** X16. A command [main] does not know runs no handler: the client is
    built first, then the lookup in the command table raises [KeyError],
    and the platform receives one error entry that names the command and
    carries the text of that [KeyError], the [repr] of the command.
    [build_iterator] is never called, nothing is created and the persisted
    mapping stays. *)
Theorem main_rejects_unknown_command w username password cl :
  ¬ known_command (command (demisto w)) →
  main_credentials w = Return (username, password) →
  main_client w username password = Return cl →
  fst (main w) = Raise SystemExit ∧
  entries (demisto (snd (main w)))
  = entries (demisto w)
    ++ [ReturnError ("Failed to execute " +:+ command (demisto w) +:+ " command. Error: "
                     +:+ py_repr (command (demisto w)) +:+ LF +:+ LF +:+ "traceback: "
                     +:+ format_exc (PyException "KeyError" (py_repr (command (demisto w)))))] ∧
  requests (snd (main w)) = requests w ∧
  created_indicators (demisto (snd (main w))) = created_indicators (demisto w) ∧
  persisted (snd (main w)) = persisted w ∧
  client (snd (main w)) = cl.
Proof.
  intros Hunknown Hcred Hclient. rewrite (main_run w _ _ Hcred), Hclient.
  apply known_command_eqb in Hunknown as (Ht & Hf & Hr & Hg & Hc).
  unfold main_dispatch. rewrite Ht, Hf, run_bind.
  unfold call_command. rewrite Hr, Hg, Hc. cbn [raise is_Exception].
  rewrite run_main_except. cbn [is_SSLError fst snd].
  repeat split; reflexivity.
Qed.

Lemma check_kwargs_none fname a w :
  check_kwargs fname [] a w
  = if bool_decide (a = ∅) then (Return tt, w)
    else (Raise (PyException "TypeError" (signature_error fname [] a)), w).
Proof.
  unfold check_kwargs.
  destruct (bool_decide (a = ∅)) eqn:Hempty.
  - apply bool_decide_eq_true in Hempty as ->.
    rewrite bool_decide_eq_true_2; [reflexivity | set_solver].
  - apply bool_decide_eq_false in Hempty.
    rewrite bool_decide_eq_false_2; [reflexivity |].
    intros Hsub. apply Hempty. apply dom_empty_iff_L. set_solver.
Qed.

(** X17. The reset, run through [main] with no argument, empties the
    persisted mapping and answers with the reset message.  Given any
    argument the handler is not entered, its signature taking none: the
    mapping is not reset, and the platform receives the error entry that
    names the command and carries the interpreter's [TypeError] text.
    Either way the client is built and [build_iterator] is never called. *)
Theorem main_reset w username password cl :
  command (demisto w) = "taxii2-reset-fetch-indicators" →
  main_credentials w = Return (username, password) →
  main_client w username password = Return cl →
  requests (snd (main w)) = requests w ∧
  client (snd (main w)) = cl ∧
  (args (demisto w) = ∅ →
     fst (main w) = Return tt ∧
     persisted (snd (main w)) = ∅ ∧
     entries (demisto (snd (main w)))
     = entries (demisto w) ++ [ReturnResults (ResStr RESET_MSG)]) ∧
  (args (demisto w) ≠ ∅ →
     fst (main w) = Raise SystemExit ∧
     persisted (snd (main w)) = persisted w ∧
     entries (demisto (snd (main w)))
     = entries (demisto w)
       ++ [ReturnError
             (failure_message "taxii2-reset-fetch-indicators"
                (PyException "TypeError"
                   (signature_error "reset_fetch_command" [] (args (demisto w)))))]).
Proof.
  intros Hcmd Hcred Hclient. rewrite (main_run w _ _ Hcred), Hclient, Hcmd.
  unfold main_dispatch. cbn [String.eqb Ascii.eqb Bool.eqb].
  rewrite run_bind. unfold call_command. cbn [String.eqb Ascii.eqb Bool.eqb].
  rewrite run_bind, check_kwargs_none.
  destruct (bool_decide (args (demisto w) = ∅)) eqn:Hargs.
  - apply bool_decide_eq_true in Hargs.
    split; [reflexivity |]. split; [reflexivity |]. split; [| contradiction].
    intros _. repeat split; reflexivity.
  - apply bool_decide_eq_false in Hargs.
    cbn [is_Exception]. rewrite run_main_except. cbn [is_SSLError fst snd].
    split; [reflexivity |]. split; [reflexivity |]. split; [contradiction |].
    intros _. repeat split; reflexivity.
Qed.

(** Under a negative limit every call of a cycle carries that limit. *)
Lemma fetch_negative_limit_requests initial_interval L ctx w :
  (L < 0)%Z →
  ∃ reqs,
    requests (snd (fetch_indicators_command initial_interval L ctx w)) = requests w ++ reqs ∧
    Forall (λ r, req_limit r = L) reqs.
Proof.
  intros HL.
  assert (∃ reqs : list request, requests w = requests w ++ reqs ∧
            Forall (λ r, req_limit r = L) reqs) as Hnone.
  { exists []. rewrite app_nil_r. split; [reflexivity | constructor]. }
  unfold fetch_indicators_command. rewrite run_bind. unfold lift at 1.
  destruct (parse_date_range initial_interval) as [range|e]; [| exact Hnone].
  rewrite run_bind. cbn [gets].
  destruct (collection_to_fetch (client w)) as [pinned|] eqn:Hpinned.
  - rewrite run_bind, run_client_build_iterator. eexists [_]. split.
    + destruct (build_iterator _ L _) as [[fetched_iocs|e] cl]; cbn [fst snd]; [| reflexivity].
      rewrite run_bind. cbn [gets]. rewrite run_bind. cbn [gets client].
      destruct (collection_to_fetch cl); reflexivity.
    + repeat constructor.
  - rewrite run_bind. cbn [gets].
    destruct (collections (client w)) as [colls|]; [| exact Hnone].
    destruct (fetch_all_limits colls (fst range) L [] ctx w) as (reqs & Hreqs & _ & Hneg & _).
    exists reqs. split; [exact Hreqs | apply Hneg, HL].
Qed.

(** X18. A fetch run without a usable limit parameter is unbounded: when
    the parameter is missing, [None], empty or zero, [main] puts -1 in its
    place, and every call of the cycle is made with the limit -1. *)
Theorem main_fetch_default_limit_is_unbounded w username password :
  command (demisto w) = "fetch-indicators" →
  main_credentials w = Return (username, password) →
  truthy (dict_get (params (demisto w)) "limit") = false →
  py_int (PyInt (-1)) = IntOk (-1)%Z →
  ∃ reqs,
    requests (snd (main w)) = requests w ++ reqs ∧
    Forall (λ r, req_limit r = (-1)%Z) reqs.
Proof.
  intros Hcmd Hcred Hfalsy Hint.
  assert (∃ reqs : list request, requests w = requests w ++ reqs ∧
            Forall (λ r, req_limit r = (-1)%Z) reqs) as Hnone.
  { exists []. rewrite app_nil_r. split; [reflexivity | constructor]. }
  assert (∀ cmd e (w2 : world transport),
            requests (snd (if is_Exception e then main_except cmd e w2 else (Raise e, w2)))
            = requests w2) as Hhandler.
  { intros cmd e w2. destruct (is_Exception e); [| reflexivity].
    rewrite run_main_except. destruct (is_SSLError e); reflexivity. }
  rewrite (main_run w _ _ Hcred).
  destruct (main_client w username password) as [cl|e]; [| rewrite Hhandler; exact Hnone].
  rewrite Hcmd, main_dispatch_fetch. unfold py_or. rewrite Hfalsy.
  unfold try_parse_integer. rewrite Hint.
  destruct (fetch_negative_limit_requests (dict_get (params (demisto w)) "initial_interval")
              (-1) (persisted (connected cl w)) (connected cl w)) as (reqs & Hreqs & Hall);
    [lia |].
  exists reqs. split; [| exact Hall].
  destruct (fetch_indicators_command _ (-1)%Z _ (connected cl w)) as [[fetched|e] w1];
    cbn [snd] in *; [exact Hreqs |].
  rewrite Hhandler. exact Hreqs.
Qed.

Lemma get_all_limits colls added_after :
  ∀ limit acc w,
    ∃ reqs,
      requests (snd (get_all colls limit added_after acc w)) = requests w ++ reqs ∧
      (∀ r, head reqs = Some r → req_limit r = limit) ∧
      ((0 ≤ limit)%Z → Forall (λ r, (0 < req_limit r ≤ limit)%Z) (drop 1 reqs)).
Proof.
  induction colls as [|c rest IH]; intros limit acc w.
  - exists []. simpl. rewrite app_nil_r. split; [reflexivity |].
    split; [discriminate | constructor].
  - rewrite get_all_cons. cbv zeta.
    assert (∀ w1 : world transport,
              requests w1 = requests w ++ [ {| req_collection := Some c; req_limit := limit;
                                               req_added_after := added_after |} ] →
              ∃ reqs, requests w1 = requests w ++ reqs ∧
                (∀ r, head reqs = Some r → req_limit r = limit) ∧
                ((0 ≤ limit)%Z → Forall (λ r, (0 < req_limit r ≤ limit)%Z) (drop 1 reqs)))
      as Hone.
    { intros w1 Hw1. eexists [_]. split; [exact Hw1 |].
      split; [intros r [= <-]; reflexivity | intros _; constructor]. }
    destruct (build_iterator _ limit _) as [[fetched_iocs|e] cl]; cbn [fst snd].
    2:{ apply Hone. reflexivity. }
    destruct ((limit >=? 0)%Z && _) eqn:Hstop; [apply Hone; reflexivity |].
    match goal with |- context [get_all rest ?l _ ?a ?w1] =>
      destruct (IH l a w1) as (reqs & Hreqs & Hhead & Hpos)
    end.
    eexists (_ :: reqs). rewrite Hreqs. cbn [requests]. rewrite <- app_assoc.
    split; [reflexivity |].
    split; [intros r [= <-]; reflexivity |].
    intros Hle. destruct (limit >=? 0)%Z eqn:Hge; [| lia]. cbn [andb] in Hstop.
    apply Z.leb_gt in Hstop. cbn [drop].
    destruct reqs as [|r1 reqs']; [constructor |].
    constructor.
    + rewrite (Hhead r1 eq_refl). lia.
    + eapply Forall_impl; [apply Hpos; lia |]. intros r Hr. cbv beta in Hr. lia.
Qed.

(** X19. The listing run through [main] with no argument takes the defaults
    of the handler's signature: the limit 10 and no [added_after] bound.
    Every call it makes on the client carries a limit between 0 and 10 and
    the bound [None]. *)
Theorem main_get_indicators_defaults w username password cl :
  command (demisto w) = "taxii2-get-indicators" →
  args (demisto w) = ∅ →
  main_credentials w = Return (username, password) →
  main_client w username password = Return cl →
  py_int (PyInt 10) = IntOk 10%Z →
  ∃ reqs,
    requests (snd (main w)) = requests w ++ reqs ∧
    Forall (λ r, (0 ≤ req_limit r ≤ 10)%Z ∧ req_added_after r = PyNone) reqs.
Proof.
  intros Hcmd Hargs Hcred Hclient Hint.
  assert (∀ cmd e (w2 : world transport),
            requests (snd (if is_Exception e then main_except cmd e w2 else (Raise e, w2)))
            = requests w2) as Hhandler.
  { intros cmd e w2. destruct (is_Exception e); [| reflexivity].
    rewrite run_main_except. destruct (is_SSLError e); reflexivity. }
  rewrite (main_run w _ _ Hcred), Hclient, Hcmd, Hargs.
  unfold main_dispatch. cbn [String.eqb Ascii.eqb Bool.eqb].
  assert (∃ reqs,
            requests (snd (call_command "taxii2-get-indicators" ∅ (connected cl w)))
            = requests w ++ reqs ∧
            Forall (λ r, (0 ≤ req_limit r ≤ 10)%Z ∧ req_added_after r = PyNone) reqs)
    as (reqs & Hreqs & Hall).
  { unfold call_command. cbn [String.eqb Ascii.eqb Bool.eqb].
    rewrite run_bind. unfold check_kwargs.
    rewrite bool_decide_eq_true_2 by set_solver. cbn [ret].
    unfold dict_get_default. rewrite !lookup_empty. cbn [default].
    unfold get_indicators_command.
    rewrite requests_bind_tail by (intros; apply get_indicators_output_requests).
    rewrite get_indicators_collect_run. unfold try_parse_integer. rewrite Hint.
    unfold listing_bound. cbn [truthy].
    destruct (collection_to_fetch (client (connected cl w))) as [pinned|].
    - rewrite run_client_build_iterator. eexists [_]. split; [reflexivity |].
      repeat constructor; cbn [req_limit]; lia.
    - destruct (collections (client (connected cl w))) as [colls|].
      + destruct (get_all_requests colls PyNone 10 [] (connected cl w))
          as (reqs & Hreqs & Hbound & _).
        destruct (get_all_limits colls PyNone 10 [] (connected cl w))
          as (reqs' & Hreqs' & Hhead & Hpos).
        assert (reqs' = reqs) as ->.
        { apply (app_inv_head (requests (connected cl w))).
          rewrite <- Hreqs, <- Hreqs'. reflexivity. }
        exists reqs. split; [exact Hreqs |].
        specialize (Hpos ltac:(lia)).
        destruct reqs as [|r0 reqs]; [constructor |].
        apply Forall_cons in Hbound as [Hb0 Hbound]. cbn [drop] in Hpos.
        constructor; [split; [rewrite (Hhead r0 eq_refl); lia | exact Hb0] |].
        rewrite Forall_forall in *. intros r Hr.
        split; [specialize (Hpos r Hr); cbv beta in Hpos; lia | apply Hbound, Hr].
      + exists []. cbn [snd raise]. rewrite app_nil_r. split; [reflexivity | constructor]. }
  exists reqs. split; [| exact Hall].
  rewrite run_bind.
  destruct (call_command "taxii2-get-indicators" ∅ (connected cl w)) as [[r|e] w1];
    cbn [snd] in *; [exact Hreqs |].
  rewrite Hhandler. exact Hreqs.
Qed.

(** *** The cycle after a reset *)

(** The loop asks for the first collection of a list that has one. *)
Lemma fetch_all_asks_first c rest initial_interval limit acc ctx w :
  ∃ r reqs,
    requests (snd (fetch_all (c :: rest) initial_interval limit acc ctx w))
    = requests w ++ r :: reqs.
Proof.
  rewrite fetch_all_cons. cbv zeta.
  destruct (build_iterator _ limit _) as [[fetched_iocs|e] cl]; cbn [fst snd].
  2:{ eexists _, []. reflexivity. }
  destruct ((limit >=? 0)%Z && _).
  { eexists _, []. reflexivity. }
  match goal with |- context [fetch_all rest _ ?l ?a ?x ?w1] =>
    destruct (fetch_all_visits rest initial_interval l a x w1) as (reqs & Hreqs & _)
  end.
  eexists _, reqs. rewrite Hreqs. cbn [requests]. rewrite <- app_assoc. reflexivity.
Qed.

(** A cycle that starts from the empty mapping: its calls all carry the
    parsed initial interval, the first of them with the limit of the cycle;
    they are the one call for the pinned collection, or one call for each
    collection of an initial stretch of the list, which has the first
    collection in it and, under a negative limit, is the whole list when
    the cycle returns. *)
Lemma fetch_from_empty_requests initial_interval range L w :
  parse_date_range initial_interval = Return range →
  (collection_to_fetch (client w) = None → distinct_ids (client w)) →
  ∃ reqs,
    requests (snd (fetch_indicators_command initial_interval L ∅ w)) = requests w ++ reqs ∧
    Forall (λ r, req_added_after r = PyStr (fst range)) reqs ∧
    (∀ r, head reqs = Some r → req_limit r = L) ∧
    (∀ c, collection_to_fetch (client w) = Some c → req_collection <$> reqs = [Some c]) ∧
    (∀ colls, collection_to_fetch (client w) = None → collections (client w) = Some colls →
       req_collection <$> reqs = Some <$> take (length reqs) colls ∧
       (colls ≠ [] → reqs ≠ []) ∧
       ((L < 0)%Z →
        is_return (fst (fetch_indicators_command initial_interval L ∅ w)) = true →
        length reqs = length colls)).
Proof.
  intros Hrange Hdistinct.
  destruct (collection_to_fetch (client w)) as [pinned|] eqn:Hpinned.
  - unfold fetch_indicators_command.
    rewrite run_bind. unfold lift at 1. rewrite Hrange.
    rewrite run_bind. cbn [gets]. rewrite Hpinned.
    rewrite run_bind, run_client_build_iterator, Hpinned, cursor_or_empty.
    eexists [_]. split.
    + destruct (build_iterator _ L _) as [[fetched|e] cl]; cbn [fst snd]; [| reflexivity].
      rewrite run_bind. cbn [gets]. rewrite run_bind. cbn [gets client collection_to_fetch].
      destruct (collection_to_fetch cl); reflexivity.
    + split; [repeat constructor |]. split; [intros r [= <-]; reflexivity |].
      split; [intros c [= <-]; reflexivity | discriminate].
  - destruct (collections (client w)) as [colls|] eqn:Hcolls.
    2:{ exists []. split.
        - unfold fetch_indicators_command.
          rewrite run_bind. unfold lift at 1. rewrite Hrange.
          rewrite run_bind. cbn [gets]. rewrite Hpinned.
          rewrite run_bind. cbn [gets]. rewrite Hcolls. cbn [raise snd].
          rewrite app_nil_r. reflexivity.
        - split; [constructor |]. split; [discriminate |].
          split; [discriminate | intros colls _ [=]]. }
    rewrite (fetch_all_mode _ _ _ _ _ Hpinned Hcolls), Hrange.
    destruct (fetch_all_requests colls (fst range) (Hdistinct eq_refl colls Hcolls) L [] ∅ w)
      as (reqs & Hreqs & Hall).
    destruct (fetch_all_visits colls (fst range) L [] ∅ w) as (reqs1 & Hreqs1 & Hvisit & Hfull).
    destruct (fetch_all_limits colls (fst range) L [] ∅ w) as (reqs2 & Hreqs2 & Hhead & _).
    assert (reqs1 = reqs) as ->.
    { apply (app_inv_head (requests w)). rewrite <- Hreqs, <- Hreqs1. reflexivity. }
    assert (reqs2 = reqs) as ->.
    { apply (app_inv_head (requests w)). rewrite <- Hreqs, <- Hreqs2. reflexivity. }
    exists reqs. split; [exact Hreqs |]. split.
    { eapply Forall_impl; [exact Hall |].
      intros r (c & _ & _ & Hafter). rewrite Hafter. apply cursor_or_empty. }
    split; [exact Hhead |]. split; [discriminate |].
    intros colls' _ [= <-]. split; [exact Hvisit |]. split.
    + intros Hsome. destruct colls as [|c rest]; [contradiction |].
      destruct (fetch_all_asks_first c rest (fst range) L [] ∅ w) as (r & reqs' & Hfirst).
      rewrite Hreqs in Hfirst. apply app_inv_head in Hfirst. rewrite Hfirst. discriminate.
    + intros HL Hret. apply Hfull; assumption.
Qed.

(** A fetch run whose client is built and whose limit parses: its calls
    are those of the cycle, and it returns when the cycle does. *)
Lemma main_fetch_run w username password cl L :
  command (demisto w) = "fetch-indicators" →
  main_credentials w = Return (username, password) →
  main_client w username password = Return cl →
  try_parse_integer (py_or (dict_get (params (demisto w)) "limit") (PyInt (-1))) LIMIT_ERR_MSG
  = Return L →
  requests (snd (main w))
  = requests (snd (fetch_indicators_command (dict_get (params (demisto w)) "initial_interval") L
                     (persisted w) (connected cl w))) ∧
  (fst (main w) = Return tt →
   is_return (fst (fetch_indicators_command (dict_get (params (demisto w)) "initial_interval") L
                     (persisted w) (connected cl w))) = true).
Proof.
  intros Hcmd Hcred Hclient Hlimit.
  rewrite (main_run w _ _ Hcred), Hclient, Hcmd, main_dispatch_fetch, Hlimit.
  change (persisted (connected cl w)) with (persisted w).
  destruct (fetch_indicators_command _ L (persisted w) (connected cl w)) as [[fetched|e] w1];
    cbn [fst snd is_return].
  - split; reflexivity.
  - destruct (is_Exception e).
    + rewrite run_main_except. destruct (is_SSLError e); split; try reflexivity; discriminate.
    + split; [reflexivity | discriminate].
Qed.

(** C5, as amended. The reset returns and leaves the persisted cursor
    mapping empty.  In the next fetch run on that mapping (the client
    built, the limit and the initial interval parsed, and the collections
    the client lists carrying distinct ids), every call made on the client
    carries the parsed initial interval as its [added_after] bound.  The
    calls are: the one call for the pinned collection; or, with nothing
    pinned, one call each for an initial stretch of the listed collections,
    which holds the first collection whenever there is one and, under a
    negative limit, is the whole list when the run returns. *)
Theorem reset_then_fetch_uses_initial_interval w0 :
  fst (reset_fetch_command w0) = Return (ResStr RESET_MSG) ∧
  persisted (snd (reset_fetch_command w0)) = ∅ ∧
  ∀ w username password cl L range,
    persisted w = persisted (snd (reset_fetch_command w0)) →
    command (demisto w) = "fetch-indicators" →
    main_credentials w = Return (username, password) →
    main_client w username password = Return cl →
    (collection_to_fetch cl = None → distinct_ids cl) →
    try_parse_integer (py_or (dict_get (params (demisto w)) "limit") (PyInt (-1))) LIMIT_ERR_MSG
    = Return L →
    parse_date_range (dict_get (params (demisto w)) "initial_interval") = Return range →
    ∃ reqs,
      requests (snd (main w)) = requests w ++ reqs ∧
      Forall (λ r, req_added_after r = PyStr (fst range)) reqs ∧
      (∀ c, collection_to_fetch cl = Some c → req_collection <$> reqs = [Some c]) ∧
      (∀ colls, collection_to_fetch cl = None → collections cl = Some colls →
         req_collection <$> reqs = Some <$> take (length reqs) colls ∧
         (colls ≠ [] → reqs ≠ []) ∧
         ((L < 0)%Z → fst (main w) = Return tt → length reqs = length colls)).
Proof.
  assert (persisted (snd (reset_fetch_command w0)) = ∅) as Hempty.
  { destruct w0 as [cl0 d0 reqs0]. reflexivity. }
  split; [destruct w0 as [cl0 d0 reqs0]; reflexivity |]. split; [exact Hempty |].
  intros w username password cl L range Hctx Hcmd Hcred Hclient Hdistinct Hlimit Hrange.
  rewrite Hempty in Hctx.
  destruct (main_fetch_run w _ _ cl L Hcmd Hcred Hclient Hlimit) as [Hcalls Hret].
  rewrite Hctx in Hcalls, Hret.
  destruct (fetch_from_empty_requests (dict_get (params (demisto w)) "initial_interval")
              range L (connected cl w) Hrange Hdistinct)
    as (reqs & Hreqs & Hall & _ & Hpinned & Hlisted).
  exists reqs. split; [rewrite Hcalls; exact Hreqs |]. split; [exact Hall |].
  split; [exact Hpinned |].
  intros colls Hnone Hcolls. destruct (Hlisted colls Hnone Hcolls) as (Hvisit & Hfirst & Hfull).
  split; [exact Hvisit |]. split; [exact Hfirst |].
  intros HL Hmain. apply Hfull; [exact HL | apply Hret, Hmain].
Qed.

End Coverage.

(** *** The further properties at concrete inputs *)

Lemma main_lets_no_exception_out_witness :
  let E := Sample.collaborators in
  let w := Sample.instance "taxii2-get-indicators" ∅ {[ "limit" := PyStr "ten" ]} ∅ in
  fst (main_dispatch (params (demisto w)) (args (demisto w)) (command (demisto w))
         (connected Sample.listed w))
  = Raise (DemistoException LIMIT_ERR_MSG) ∧
  (fst (main w) = Return tt ∨ fst (main w) = Raise SystemExit).
Proof.
  cbv zeta. split; [reflexivity |].
  apply (main_lets_no_exception_out (E := Sample.collaborators) _ PyNone PyNone).
  reflexivity.
Defined.

Lemma main_reports_handler_failure_witness :
  let E := Sample.collaborators in
  let w := Sample.instance "taxii2-get-indicators" ∅ {[ "added_after" := PyInt 5 ]}
             {[ "col-1" := PyStr "2024-02-01T00:00:00Z" ]} in
  let e := PyException "AttributeError" "object has no attribute 'strip'" in
  let w1 := connected Sample.listed w in
  fst (main w) = Raise SystemExit ∧
  entries (demisto (snd (main w)))
  = entries (demisto w1) ++ [ReturnError (failure_message (command (demisto w)) e)] ∧
  persisted (snd (main w)) = persisted w1 ∧
  created_indicators (demisto (snd (main w))) = created_indicators (demisto w1) ∧
  requests (snd (main w)) = requests w1 ∧
  client (snd (main w)) = client w1.
Proof.
  cbv zeta.
  apply (main_reports_handler_failure (E := Sample.collaborators) _ PyNone PyNone Sample.listed).
  - reflexivity.
  - reflexivity.
  - reflexivity.
  - reflexivity.
Defined.


Lemma main_fetch_persists_returned_cursor_witness :
  let E := Sample.collaborators in
  let w := Sample.instance "fetch-indicators" (Sample.configured (PyStr "4")) ∅ ∅ in
  let run := fetch_indicators_command (PyStr "60 days") 4 ∅ (connected Sample.listed w) in
  fst (main w) = Return tt ∧
  persisted (snd (main w)) = snd (returned (fst run) ([], ∅)) ∧
  created_indicators (demisto (snd (main w)))
  = created_indicators (demisto w) ++ batch (fetched run) 2000 ∧
  entries (demisto (snd (main w))) = entries (demisto w) ∧
  requests (snd (main w)) = requests (snd run).
Proof.
  cbv zeta.
  apply (main_fetch_persists_returned_cursor (E := Sample.collaborators) _ PyNone PyNone
           Sample.listed 4).
  - reflexivity.
  - reflexivity.
  - reflexivity.
  - reflexivity.
  - apply fetch_run_returned. vm_compute. reflexivity.
Defined.

Lemma main_fetch_is_all_or_nothing_witness :
  let E := Sample.collaborators in
  let p : gmap string pyvalue := {[ "initial_interval" := PyStr "3 weeks" ]} in
  let w := Sample.instance "fetch-indicators" p ∅ {[ "col-1" := PyStr "2024-02-01T00:00:00Z" ]} in
  persisted (snd (main w)) = persisted w ∧
  created_indicators (demisto (snd (main w))) = created_indicators (demisto w).
Proof.
  cbv zeta.
  apply (main_fetch_is_all_or_nothing (E := Sample.collaborators) _ PyNone PyNone).
  - reflexivity.
  - reflexivity.
  - vm_compute. discriminate.
Defined.

Lemma main_fetch_rejects_bad_limit_witness :
  let E := Sample.collaborators in
  let w := Sample.instance "fetch-indicators" (Sample.configured (PyStr "ten")) ∅
             {[ "col-1" := PyStr "2024-02-01T00:00:00Z" ]} in
  fst (main w) = Raise SystemExit ∧
  entries (demisto (snd (main w)))
  = entries (demisto w)
    ++ [ReturnError (failure_message "fetch-indicators" (DemistoException LIMIT_ERR_MSG))] ∧
  requests (snd (main w)) = requests w ∧
  created_indicators (demisto (snd (main w))) = created_indicators (demisto w) ∧
  persisted (snd (main w)) = persisted w ∧
  client (snd (main w)) = Sample.listed.
Proof.
  cbv zeta.
  apply (main_fetch_rejects_bad_limit (E := Sample.collaborators) _ PyNone PyNone Sample.listed).
  - reflexivity.
  - reflexivity.
  - reflexivity.
  - right. reflexivity.
Defined.

Lemma fetch_visits_collections_in_order_witness :
  let E := Sample.collaborators in
  let w := Sample.all [Sample.col_1; Sample.col_2; Sample.col_3] in
  ∃ reqs,
    requests (snd (fetch_indicators_command (PyStr "60 days") 4 ∅ w)) = requests w ++ reqs ∧
    req_collection <$> reqs
    = Some <$> take (length reqs) [Sample.col_1; Sample.col_2; Sample.col_3].
Proof.
  cbv zeta.
  apply (fetch_visits_collections_in_order (E := Sample.collaborators)); reflexivity.
Defined.

Lemma fetch_unbounded_visits_every_collection_witness :
  let E := Sample.collaborators in
  let colls := [Sample.col_1; Sample.col_2; Sample.col_3] in
  let run := fetch_indicators_command (PyStr "60 days") (-1) ∅ (Sample.all colls) in
  ∃ reqs,
    requests (snd run) = requests (Sample.all colls) ++ reqs ∧
    req_collection <$> reqs = Some <$> colls ∧
    Forall (λ r, req_limit r = (-1)%Z) reqs ∧
    ∀ c, c ∈ colls → is_Some (snd (returned (fst run) ([], ∅)) !! id c).
Proof.
  cbv zeta.
  eapply (fetch_unbounded_visits_every_collection (E := Sample.collaborators)).
  - lia.
  - reflexivity.
  - reflexivity.
  - apply fetch_run_returned. vm_compute. reflexivity.
Defined.


Lemma fetch_writes_only_listed_cursors_witness :
  let E := Sample.collaborators in
  let ctx : cursor := {[ "col-9" := PyStr "2024-02-01T00:00:00Z" ]} in
  let colls := [Sample.col_1; Sample.col_2] in
  let run := fetch_indicators_command (PyStr "60 days") (-1) ctx (Sample.all colls) in
  (∀ cid, cid ∉ id <$> colls → snd (returned (fst run) ([], ∅)) !! cid = ctx !! cid) ∧
  (∀ cid, is_Some (ctx !! cid) → is_Some (snd (returned (fst run) ([], ∅)) !! cid)).
Proof.
  cbv zeta.
  eapply (fetch_writes_only_listed_cursors (E := Sample.collaborators) (PyStr "60 days") (-1)
            {[ "col-9" := PyStr "2024-02-01T00:00:00Z" ]}
            (Sample.all [Sample.col_1; Sample.col_2])).
  - reflexivity.
  - reflexivity.
  - apply fetch_run_returned. vm_compute. reflexivity.
Defined.

Lemma fetch_pinned_cursor_witness :
  let E := Sample.collaborators in
  let ctx : cursor := {[ "col-3" := PyStr "2024-02-01T00:00:00Z" ]} in
  let w := Sample.only Sample.col_3 in
  ∃ ctx' w',
    fetch_indicators_command (PyStr "60 days") 5 ctx w = (Return ([], ctx'), w') ∧
    ctx' !! "col-3" = Some (PyStr "2024-02-01T00:00:00Z") ∧
    (∀ cid, cid ≠ "col-3" → ctx' !! cid = ctx !! cid) ∧
    requests w' = requests w ++ [ {| req_collection := Some Sample.col_3; req_limit := 5;
                                     req_added_after := PyStr "2024-02-01T00:00:00Z" |} ].
Proof.
  cbv zeta.
  exact (fetch_pinned_cursor (E := Sample.collaborators) (PyStr "60 days")
           ("2024-01-01T00:00:00Z", "2024-03-01T00:00:00Z") 5
           {[ "col-3" := PyStr "2024-02-01T00:00:00Z" ]} (Sample.only Sample.col_3)
           Sample.col_3 [] (Sample.fresh (Some Sample.col_3) (Some [Sample.col_3]))
           eq_refl eq_refl eq_refl eq_refl).
Defined.

Lemma get_indicators_within_limit_witness :
  let E := Sample.collaborators in
  let w := Sample.all [Sample.col_1; Sample.col_2] in
  let run := get_indicators_collect (PyStr "4") PyNone w in
  (Z.of_nat (length (returned (fst run) [])) ≤ 4)%Z.
Proof.
  cbv zeta.
  eapply (get_indicators_within_limit (E := Sample.collaborators) PyNone (PyStr "4") PyNone 4).
  - exact sample_respects_limit.
  - reflexivity.
  - lia.
  - apply run_returned. vm_compute. reflexivity.
Defined.

Lemma get_indicators_asks_with_one_bound_witness :
  let E := Sample.collaborators in
  let w := Sample.all [Sample.col_1; Sample.col_2] in
  ∃ reqs,
    requests (snd (get_indicators_command (PyStr "false") (PyInt 10) (PyStr "1 day") w))
    = requests w ++ reqs ∧
    (∀ r, r ∈ reqs → listing_bound (PyStr "1 day") = Return (req_added_after r)) ∧
    (∀ colls, collection_to_fetch (client w) = None → collections (client w) = Some colls →
              req_collection <$> reqs = Some <$> take (length reqs) colls).
Proof.
  cbv zeta.
  apply (get_indicators_asks_with_one_bound (E := Sample.collaborators)).
Defined.

Lemma get_indicators_rejects_bad_limit_witness :
  let E := Sample.collaborators in
  get_indicators_command (PyStr "false") (PyStr "ten") (PyStr "yesterday") Sample.unresolved
  = (Raise (DemistoException LIMIT_ERR_MSG), Sample.unresolved).
Proof.
  cbv zeta.
  apply (get_indicators_rejects_bad_limit (E := Sample.collaborators)).
  right. reflexivity.
Defined.

Lemma get_collections_lists_every_collection_witness :
  let E := Sample.collaborators in
  let colls := [Sample.col_1; Sample.col_2; Sample.col_3] in
  ∃ cr,
    get_collections_command (Sample.all colls) = (Return (ResCommandResults cr), Sample.all colls) ∧
    outputs_prefix cr = "TAXII2.Collections" ∧
    outputs_key_field cr = "ID" ∧
    readable_output cr = tableToMarkdown "TAXII2 Server Collections:" (outputs cr) ["Name"; "ID"] ∧
    length (outputs cr) = length colls ∧
    ∀ i c, colls !! i = Some c →
      ∃ row, outputs cr !! i = Some row ∧
             row !! "Name" = Some (PyStr (title c)) ∧
             row !! "ID" = Some (PyStr (id c)) ∧
             ∀ k, k ≠ "Name" → k ≠ "ID" → row !! k = None.
Proof.
  cbv zeta.
  apply (get_collections_lists_every_collection (E := Sample.collaborators)). reflexivity.
Defined.

Lemma main_test_module_witness :
  let E := Sample.collaborators in
  let w := Sample.instance "test-module" ∅ ∅ ∅ in
  entries (demisto (snd (main w))) = entries (demisto w) ++ [Results (PyStr "ok")] ∧
  (fst (main w) = Return tt ↔ ∃ c rest, collections Sample.listed = Some (c :: rest)) ∧
  requests (snd (main w)) = requests w ∧
  persisted (snd (main w)) = persisted w.
Proof.
  cbv zeta.
  apply (main_test_module (E := Sample.collaborators) _ PyNone PyNone Sample.listed);
    reflexivity.
Defined.

Lemma main_rejects_unknown_command_witness :
  let E := Sample.collaborators in
  let w := Sample.instance "taxii2-get-everything" ∅ ∅
             {[ "col-1" := PyStr "2024-02-01T00:00:00Z" ]} in
  fst (main w) = Raise SystemExit ∧
  entries (demisto (snd (main w)))
  = entries (demisto w)
    ++ [ReturnError ("Failed to execute taxii2-get-everything command. Error: "
                     +:+ "'taxii2-get-everything'" +:+ LF +:+ LF +:+ "traceback: "
                     +:+ format_exc (PyException "KeyError" "'taxii2-get-everything'"))] ∧
  requests (snd (main w)) = requests w ∧
  created_indicators (demisto (snd (main w))) = created_indicators (demisto w) ∧
  persisted (snd (main w)) = persisted w ∧
  client (snd (main w)) = Sample.listed.
Proof.
  cbv zeta.
  refine (main_rejects_unknown_command (E := Sample.collaborators)
            (Sample.instance "taxii2-get-everything" ∅ ∅
               {[ "col-1" := PyStr "2024-02-01T00:00:00Z" ]})
            PyNone PyNone Sample.listed _ eq_refl eq_refl).
  intros Hknown. apply (bool_decide_pack _) in Hknown. vm_compute in Hknown. exact Hknown.
Defined.

Lemma main_reset_witness :
  let E := Sample.collaborators in
  let ctx : cursor := {[ "col-1" := PyStr "2024-02-01T00:00:00Z" ]} in
  let w := Sample.instance "taxii2-reset-fetch-indicators" ∅ ∅ ctx in
  let w' := Sample.instance "taxii2-reset-fetch-indicators" ∅ {[ "limit" := PyStr "5" ]} ctx in
  (fst (main w) = Return tt ∧
   persisted (snd (main w)) = ∅ ∧
   entries (demisto (snd (main w))) = entries (demisto w) ++ [ReturnResults (ResStr RESET_MSG)]) ∧
  (fst (main w') = Raise SystemExit ∧
   persisted (snd (main w')) = ctx ∧
   entries (demisto (snd (main w')))
   = entries (demisto w')
     ++ [ReturnError
           (failure_message "taxii2-reset-fetch-indicators"
              (PyException "TypeError"
                 "reset_fetch_command() got an unexpected keyword argument 'limit'"))]).
Proof.
  cbv zeta. split.
  - apply (main_reset (E := Sample.collaborators) _ PyNone PyNone Sample.listed);
      reflexivity.
  - destruct (main_reset (E := Sample.collaborators)
                (Sample.instance "taxii2-reset-fetch-indicators" ∅ {[ "limit" := PyStr "5" ]}
                   {[ "col-1" := PyStr "2024-02-01T00:00:00Z" ]})
                PyNone PyNone Sample.listed) as (_ & _ & _ & Hstray);
      [reflexivity | reflexivity | reflexivity |].
    apply Hstray.
    intros Hempty. apply (f_equal (λ m : gmap string pyvalue, m !! "limit")) in Hempty.
    vm_compute in Hempty. discriminate.
Defined.

Lemma main_fetch_default_limit_is_unbounded_witness :
  let E := Sample.collaborators in
  let w := Sample.instance "fetch-indicators" (Sample.configured (PyInt 0)) ∅ ∅ in
  ∃ reqs,
    requests (snd (main w)) = requests w ++ reqs ∧
    Forall (λ r, req_limit r = (-1)%Z) reqs.
Proof.
  cbv zeta.
  apply (main_fetch_default_limit_is_unbounded (E := Sample.collaborators) _ PyNone PyNone);
    reflexivity.
Defined.

Lemma main_get_indicators_defaults_witness :
  let E := Sample.collaborators in
  let w := Sample.instance "taxii2-get-indicators" ∅ ∅
             {[ "col-1" := PyStr "2024-02-01T00:00:00Z" ]} in
  ∃ reqs,
    requests (snd (main w)) = requests w ++ reqs ∧
    Forall (λ r, (0 ≤ req_limit r ≤ 10)%Z ∧ req_added_after r = PyNone) reqs.
Proof.
  cbv zeta.
  apply (main_get_indicators_defaults (E := Sample.collaborators) _ PyNone PyNone Sample.listed);
    reflexivity.
Defined.

Lemma reset_then_fetch_uses_initial_interval_witness :
  let E := Sample.collaborators in
  let w0 := Sample.instance "taxii2-reset-fetch-indicators" ∅ ∅
              {[ "col-1" := PyStr "2024-02-01T00:00:00Z" ]} in
  let w := Sample.instance "fetch-indicators" (Sample.configured (PyInt (-1))) ∅ ∅ in
  let colls := [Sample.col_1; Sample.col_2; Sample.col_3] in
  persisted (snd (reset_fetch_command w0)) = ∅ ∧
  ∃ reqs,
    requests (snd (main w)) = requests w ++ reqs ∧
    Forall (λ r, req_added_after r = PyStr "2024-01-01T00:00:00Z") reqs ∧
    req_collection <$> reqs = Some <$> take (length reqs) colls ∧
    length reqs = length colls.
Proof.
  cbv zeta.
  destruct (reset_then_fetch_uses_initial_interval (E := Sample.collaborators)
              (Sample.instance "taxii2-reset-fetch-indicators" ∅ ∅
                 {[ "col-1" := PyStr "2024-02-01T00:00:00Z" ]})) as (_ & Hempty & Hnext).
  split; [exact Hempty |].
  destruct (Hnext (Sample.instance "fetch-indicators" (Sample.configured (PyInt (-1))) ∅ ∅)
              PyNone PyNone Sample.listed (-1)%Z
              ("2024-01-01T00:00:00Z", "2024-03-01T00:00:00Z"))
    as (reqs & Hreqs & Hall & _ & Hlisted).
  - reflexivity.
  - reflexivity.
  - reflexivity.
  - reflexivity.
  - intros _ colls [= <-]. exact sample_ids_distinct.
  - reflexivity.
  - reflexivity.
  - destruct (Hlisted [Sample.col_1; Sample.col_2; Sample.col_3] eq_refl eq_refl)
      as (Hvisit & _ & Hfull).
    exists reqs. split; [exact Hreqs |]. split; [exact Hall |]. split; [exact Hvisit |].
    apply Hfull; [lia | vm_compute; reflexivity].
Defined.

(** C5, as stated, fails when two of the collections the client lists carry
    one id: the cycle reads back the cursor it wrote for the first of them,
    and asks the second from 2024-01-02, not from the initial interval,
    2024-01-01. *)
Lemma duplicate_ids_break_initial_interval :
  ¬ cycle_after_reset_asks_from_interval Sample.collaborators (PyStr "60 days") (-1)
      (Sample.all [Sample.col_1; Sample.col_1_mirror]).
Proof.
  intros Hclaim.
  specialize (Hclaim ("2024-01-01T00:00:00Z", "2024-03-01T00:00:00Z") eq_refl
                {| req_collection := Some Sample.col_1_mirror; req_limit := (-1);
                   req_added_after := PyStr "2024-01-02T00:00:00Z" |}).
  discriminate Hclaim. vm_compute. right. left.
Qed.
